(** * PID controller and CPAP plant simulator: a shallow embedding

    Sources embedded here:
    - [src/algorithms/PID_Controller.py]: class [PIDController]
      ([__init__], [_PI_formula], [_PID_formula], [__call__],
      [train_pid_with_ZN_method], [train_pid_controller]);
    - [src/environments/CPAP_env.py]: classes [Lung], [Ventilator],
      [SimulationState] and [CpapEnv.simulation_model],
      [CpapEnv._expiratory_flow].

    Python numbers are kept abstract: every definition is written over
    a type [F] carrying the arithmetic the source uses (class [Num]),
    so the structural theorems hold for any arithmetic, the machine's
    included. Exact rational arithmetic ([Q]) is one instance; it is
    used to run the code on concrete inputs and wherever a statement
    needs the field laws. *)

From Stdlib Require Import ZArith QArith Qminmax Qabs Bool List String Lia Lqa.
Import ListNotations.

Set Implicit Arguments.

(** ** Numbers *)

(** The arithmetic of the source. [lit] reads a numeric literal (and
    converts a Python [int]); [div] is [None] where Python raises
    [ZeroDivisionError] (an arithmetic that never raises, such as
    numpy's, always answers [Some]); [leb a b] is [a <= b];
    [truthy x] is Python's truth value of [x] (it is not zero);
    [np_exp], [np_clip], [np_sign] and [np_abs] are numpy's [exp],
    [clip], [sign] and [abs]. *)
Class Num (F : Type) : Type := {
  lit : Q -> F;
  add : F -> F -> F;
  sub : F -> F -> F;
  mul : F -> F -> F;
  neg : F -> F;
  div : F -> F -> option F;
  leb : F -> F -> bool;
  truthy : F -> bool;
  np_exp : F -> F;
  np_clip : F -> F -> F -> F;
  np_sign : F -> F;
  np_abs : F -> F
}.

Definition of_Z {F} `{Num F} (z : Z) : F := lit (inject_Z z).

(** [a >= b] as Python evaluates it. *)
Definition geb {F} `{Num F} (a b : F) : bool := leb b a.

Declare Scope num_scope.
Delimit Scope num_scope with num.
Infix "+" := add : num_scope.
Infix "-" := sub : num_scope.
Infix "*" := mul : num_scope.

(** ** Exceptions and results *)

Inductive exn : Type :=
| ValueError (msg : string)
| ZeroDivisionError
| IndexError.

(** How a call ends: it returns, it raises, or it leaves the process
    ([exit()]). *)
Inductive result (A : Type) : Type :=
| Returned (a : A)
| Raised (e : exn)
| Exited.

Arguments Raised {A} e.
Arguments Exited {A}.

Definition result_bind {A B} (r : result A) (k : A -> result B) : result B :=
  match r with
  | Returned a => k a
  | Raised e => Raised e
  | Exited => Exited
  end.

(** A division inside a call that can raise. *)
Definition div_or_raise {F} `{Num F} (a b : F) : result F :=
  match div a b with
  | Some q => Returned q
  | None => Raised ZeroDivisionError
  end.

(** Methods of an object with fields [S]: the fields are threaded
    through, and they are kept as they stand when the call raises. *)
Definition M (S A : Type) : Type := S -> S * result A.

Definition ret {S A} (a : A) : M S A := fun s => (s, Returned a).

Definition bind {S A B} (m : M S A) (k : A -> M S B) : M S B :=
  fun s =>
    match m s with
    | (s', Returned a) => k a s'
    | (s', Raised e) => (s', Raised e)
    | (s', Exited) => (s', Exited)
    end.

Definition gets {S A} (f : S -> A) : M S A := fun s => (s, Returned (f s)).
Definition modify {S} (f : S -> S) : M S unit := fun s => (f s, Returned tt).
Definition lift {S A} (r : result A) : M S A := fun s => (s, r).

Declare Scope method_scope.
Delimit Scope method_scope with method.
Notation "x <- m ;; k" := (bind m (fun x => k))
  (at level 61, m at next level, right associativity) : method_scope.
Notation "m ;;; k" := (bind m (fun _ => k))
  (at level 61, right associativity) : method_scope.

(** A Python value returned by the controller: a number or [None]. *)
Inductive pyval (F : Type) : Type :=
| PyNone
| PyNum (x : F).

Arguments PyNone {F}.

(** ** [PIDController] *)

Module PIDController.
Section Controller.
Context {F : Type} `{Num F}.
Local Open Scope num_scope.
Local Open Scope method_scope.

(** The fields set by [__init__]. [use_derivative] stands for the
    choice stored in [self.formula]. *)
Record t : Type := mk {
  Kp : F;
  Ki : F;
  Kd : F;
  min : F;
  max : F;
  dt : F;
  previous_error : F;
  integral : F;
  use_derivative : bool
}.

Definition set_integral (v : F) (c : t) : t :=
  mk (Kp c) (Ki c) (Kd c) (min c) (max c) (dt c)
     (previous_error c) v (use_derivative c).

Definition set_previous_error (v : F) (c : t) : t :=
  mk (Kp c) (Ki c) (Kd c) (min c) (max c) (dt c)
     v (integral c) (use_derivative c).

(** [__init__]: [integrator_bounds] is the pair [(lo, hi)];
    [previous_error] and [integral] start at [0]. *)
Definition init (kp ki kd : F) (integrator_bounds : F * F) (dt0 : F)
    (use_deriv : bool) : t :=
  mk kp ki kd (fst integrator_bounds) (snd integrator_bounds) dt0
     (of_Z 0) (of_Z 0) use_deriv.

(** [self.integral += np.clip(error * self.dt, self.min, self.max)] *)
Definition accumulate (error : F) : M t unit :=
  modify (fun c =>
    set_integral (integral c + np_clip (error * dt c) (min c) (max c)) c).

(** The two local values of [_PID_formula]: [derivative], and the
    value of the expression statement on its last line. *)
Definition _PID_locals (error : F) : M t (F * F) :=
  accumulate error ;;;
  c <- gets (fun c => c) ;;
  derivative <- lift (div_or_raise (error - previous_error c) (dt c)) ;;
  ret (derivative,
       Kp c * error + Ki c * integral c + Kd c * derivative).

(** [_PID_formula] has no [return]: the value is dropped and the
    call yields [None]. *)
Definition _PID_formula (error : F) : M t (pyval F) :=
  _ <- _PID_locals error ;;
  ret PyNone.

Definition _PI_formula (error : F) : M t (pyval F) :=
  accumulate error ;;;
  c <- gets (fun c => c) ;;
  ret (PyNum (Kp c * error + Ki c * integral c)).

Definition formula (error : F) : M t (pyval F) :=
  fun c =>
    (if use_derivative c then _PID_formula error else _PI_formula error) c.

(** [__call__] *)
Definition call (error : F) : M t (pyval F) :=
  output <- formula error ;;
  modify (set_previous_error error) ;;;
  ret output.

(** The derivative the next tick would take, as [_PID_formula]
    computes it from the stored fields. *)
Definition derivative_of (c : t) (error : F) : option F :=
  div (error - previous_error c) (dt c).

(** The fields a run of calls leaves, one call per error in the
    order of the list, whatever each call's outcome. *)
Fixpoint after_calls (errors : list F) (c : t) : t :=
  match errors with
  | [] => c
  | e :: rest => after_calls rest (fst (call e c))
  end.

End Controller.

(** *** The tuners (static methods) *)

(** [ct.TransferFunction(num, den)], kept as its two coefficient lists. *)
Record TransferFunction (F : Type) : Type := mkTF {
  tf_num : list F;
  tf_den : list F
}.

(** What [train_pid_controller] returns: the transfer function its
    closure [pid_controller] captures, and the dictionary of gains. *)
Record trained (F : Type) : Type := mkTrained {
  optimized_pid : TransferFunction F;
  optimized_Kp : F;
  optimized_Ki : F;
  optimized_Kd : F
}.

Section Tuners.
Context {F : Type} `{Num F}.
Local Open Scope num_scope.

(** The library calls the tuners make, by the library that owns them:
    - [step_response plant] is [ct.step_response(plant)], the pair
      [(time, plant_y)];
    - [step_info_peak plant] is [ct.step_info(plant)["Peak"]];
    - [np_gradient y x] is [np.gradient(y, x)];
    - [closed_loop_step_response pid plant] is the output [y] of
      [ct.step_response(ct.feedback(pid * plant, 1),
      T=np.linspace(0, 10, 1000))];
    - [minimize f x0 method] is [scipy.optimize.minimize(f, x0,
      method=method).x];
    - [forced_response sys T U] is [ct.forced_response(sys, T=T, U=U).y]
      (its first row). *)
Variable Plant : Type.
Variable step_response : Plant -> list F * list F.
Variable step_info_peak : Plant -> F.
Variable np_gradient : list F -> list F -> list F.
Variable closed_loop_step_response : TransferFunction F -> Plant -> list F.
Variable minimize :
  (F * F * F -> F) -> F * F * F -> string -> result (F * F * F).
Variable forced_response :
  TransferFunction F -> list F -> list F -> list F.

(** [np.diff]: the differences of neighbours. *)
Fixpoint np_diff (l : list F) : list F :=
  match l with
  | a :: ((b :: _) as tl) => (b - a) :: np_diff tl
  | _ => []
  end.

(** [np.where(a)[0]]: the positions of the entries that are true,
    counted from [k]. *)
Fixpoint np_where_from (k : nat) (l : list F) : list nat :=
  match l with
  | [] => []
  | a :: tl =>
      if truthy a then k :: np_where_from (S k) tl
      else np_where_from (S k) tl
  end.

Definition np_where (l : list F) : list nat := np_where_from 0 l.

(** [a[k]] on a list. *)
Definition index {A} (l : list A) (k : nat) : result A :=
  match nth_error l k with
  | Some a => Returned a
  | None => Raised IndexError
  end.

(** The local values of [train_pid_with_ZN_method] before the gain
    table: the inflexion point, the slope there, the peak [h], and the
    two tangent marks [L] and [T]. *)
Record reaction_curve : Type := mkCurve {
  t_inflexion : F;
  y_inflexion : F;
  slope : F;
  h : F;
  L : F;
  T : F
}.

Definition analyse (plant : Plant) : result reaction_curve :=
  let '(time, plant_y) := step_response plant in
  let dy_dt := np_gradient plant_y time in
  let d2y_dt2 := np_gradient dy_dt time in
  result_bind (index (np_where (np_diff (map np_sign d2y_dt2))) 0)
    (fun inflexion_idx =>
  result_bind (index time inflexion_idx) (fun t_inflexion =>
  result_bind (index plant_y inflexion_idx) (fun y_inflexion =>
  result_bind (index dy_dt inflexion_idx) (fun slope =>
  result_bind (div_or_raise y_inflexion slope) (fun q0 =>
  let t_intersect_y0 := t_inflexion - q0 in
  let h := step_info_peak plant in
  result_bind (div_or_raise (h - y_inflexion) slope) (fun qh =>
  let t_intersect_yh := t_inflexion + qh in
  Returned (mkCurve t_inflexion y_inflexion slope h
              t_intersect_y0 (t_intersect_yh - t_intersect_y0)))))))).

(** The array [np.diff(np.sign(d2y_dt2))] of line 86, whose first
    true entry is the inflexion. *)
Definition sign_changes (plant : Plant) : list F :=
  let '(time, plant_y) := step_response plant in
  np_diff (map np_sign (np_gradient (np_gradient plant_y time) time)).

(** The gain table, lines 101 to 114. *)
Definition gain_table (pid_type : string) (L T : F) : result (F * F * F) :=
  if String.eqb pid_type "P" then
    result_bind (div_or_raise T L) (fun q =>
    Returned (q, of_Z 0, of_Z 0))
  else if String.eqb pid_type "PI" then
    result_bind (div_or_raise T L) (fun q =>
    result_bind (div_or_raise L (lit 0.3)) (fun ki =>
    Returned (lit 0.9 * q, ki, of_Z 0)))
  else if String.eqb pid_type "PID" then
    result_bind (div_or_raise T L) (fun q =>
    Returned (lit 1.2 * q, of_Z 2 * L, lit 0.5 * L))
  else
    Raised (ValueError "Invalid PID type. Choose between 'P', 'PI' or 'PID'.").

(** [train_pid_with_ZN_method(plant, pid_type, plot)]. The drawing
    calls under [if (plot)] change nothing the function reads
    afterwards; the block ends in [exit()]. *)
Definition train_pid_with_ZN_method (plant : Plant) (pid_type : string)
    (plot : bool) : result (F * F * F) :=
  result_bind (analyse plant) (fun rc =>
  result_bind (gain_table pid_type (L rc) (T rc)) (fun gains =>
  if plot then Exited else Returned gains)).

(** The closure [tangente(t)] of the plot block, line 123, over the
    locals of the analysis. *)
Definition tangente (rc : reaction_curve) (t : F) : F :=
  slope rc * (t - t_inflexion rc) + y_inflexion rc.

(** The defaults of the signature: [pid_type="PI"], [plot=True]. *)
Definition default_pid_type : string := "PI".
Definition default_plot : bool := true.

(** [np.sum] over a list. *)
Definition np_sum (l : list F) : F := fold_left add l (of_Z 0).

(** The denominator [[1, 0.001, 0.001]] both transfer functions use. *)
Definition pid_den : list F := [of_Z 1; lit 0.001; lit 0.001].

(** The objective [optimize_pid(params)] of the search. *)
Definition optimize_pid (plant : Plant) (params : F * F * F) : F :=
  let '(Kp, Ki, Kd) := params in
  let pid := mkTF [Kp; Ki; Kd] pid_den in
  let y := closed_loop_step_response pid plant in
  let error := map (fun yk => of_Z 1 - yk) y in
  np_sum (map np_abs error).

(** [train_pid_controller(plant, pid_training_method, pid_type,
    initial_kp, initial_ki, initial_kd)]. The ZN branch passes the
    plant and the family only, so the tuner runs with its default
    [plot]. *)
Definition train_pid_controller (plant : Plant)
    (pid_training_method pid_type : string)
    (initial_kp initial_ki initial_kd : F) : result (trained F) :=
  result_bind
    (if String.eqb pid_training_method "ZN" then
       train_pid_with_ZN_method plant pid_type default_plot
     else
       minimize (optimize_pid plant) (initial_kp, initial_ki, initial_kd)
         pid_training_method)
    (fun '(optimized_Kp, optimized_Ki, optimized_Kd) =>
       Returned (mkTrained
         (mkTF [optimized_Kd; optimized_Kp; optimized_Ki] pid_den)
         optimized_Kp optimized_Ki optimized_Kd)).

(** The closure [pid_controller(error)] that is returned. *)
Definition pid_controller (tr : trained F) (error : F) : result F :=
  index (forced_response (optimized_pid tr)
           [of_Z 0; lit 1e-6] [of_Z 0; error]) 1.

End Tuners.
End PIDController.

(** ** The CPAP plant simulator *)

(** [class Lung] *)
Module Lung.
Section Lung.
Context {F : Type} `{Num F}.

Record t : Type := mk {
  r_aw : F;
  _r_aw : F;
  c_rs : F
}.

Definition init (r_aw0 c_rs0 : F) : result t :=
  result_bind (div_or_raise r_aw0 (of_Z 1000)) (fun conv =>
  Returned (mk r_aw0 conv c_rs0)).

End Lung.
End Lung.

(** [class Ventilator] *)
Module Ventilator.
Section Ventilator.
Context {F : Type} `{Num F}.
Local Open Scope num_scope.

Record t : Type := mk {
  v_t : F;
  peep : F;
  rr : F;
  _rr : F;
  t_i : F;
  t_ip : F;
  t_c : F;
  t_e : F;
  _f_i : F
}.

(** [__init__]: the assignments in the order of the source; nothing
    is compared or checked. *)
Definition init (v_t0 peep0 rr0 t_i0 t_ip0 : F) : result t :=
  result_bind (div_or_raise rr0 (of_Z 60)) (fun _rr0 =>
  result_bind (div_or_raise (of_Z 1) _rr0) (fun t_c0 =>
  let t_e0 := t_c0 - t_i0 - t_ip0 in
  result_bind (div_or_raise v_t0 t_i0) (fun _f_i0 =>
  Returned (mk v_t0 peep0 rr0 _rr0 t_i0 t_ip0 t_c0 t_e0 _f_i0)))).

End Ventilator.
End Ventilator.

Inductive phase_t : Type := exhale | inhale | pause.

Module CpapEnv.
Section CpapEnv.
Context {F : Type} `{Num F}.
Local Open Scope num_scope.
Local Open Scope method_scope.

(** [class SimulationState], the four simulation fields of [CpapEnv]. *)
Record SimulationState : Type := mkState {
  i : Z;
  phase_counter : Z;
  phase : phase_t;
  start_phase_time : F
}.

(** The class attributes of [CpapEnv], lines 79 to 82. *)
Definition initial_state : SimulationState :=
  mkState 0 1 exhale (of_Z 0).

Definition set_i (v : Z) (s : SimulationState) : SimulationState :=
  mkState v (phase_counter s) (phase s) (start_phase_time s).

Definition set_phase_counter (v : Z) (s : SimulationState) : SimulationState :=
  mkState (i s) v (phase s) (start_phase_time s).

Definition set_phase (v : phase_t) (s : SimulationState) : SimulationState :=
  mkState (i s) (phase_counter s) v (start_phase_time s).

Definition set_start_phase_time (v : F) (s : SimulationState)
    : SimulationState :=
  mkState (i s) (phase_counter s) (phase s) v.

(** The keyword arguments of [simulation_model]. *)
Record kwargs : Type := mkKwargs {
  rp : F; c : F; rl : F;
  tb : F; kb : F;
  r_aw : F; c_rs : F;
  v_t : F; peep : F; rr : F; t_i : F; t_ip : F;
  dt : F; f_s : F
}.

(** The dictionary [simulation_model] returns. *)
Record observation : Type := mkObs {
  x1 : F;
  x2 : F;
  x3 : F
}.

(** [_expiratory_flow(lung, ventilator, last_pressuse, start_time,
    current_time)] *)
Definition _expiratory_flow (lung : Lung.t) (ventilator : Ventilator.t)
    (last_pressuse start_time current_time : F) : result F :=
  let _t := current_time - start_time in
  let _rc := Lung._r_aw lung * Lung.c_rs lung in
  result_bind
    (div_or_raise (Ventilator.peep ventilator - last_pressuse)
       (Lung._r_aw lung)) (fun a =>
  result_bind (div_or_raise (neg _t) _rc) (fun b =>
  Returned (a * np_exp b))).

(** [self.phase_counter += 1], then the test that ends the phase:
    [if (self.phase_counter >= duration * f_s)] sets the phase to
    [next] and the counter to [1]. *)
Definition count_phase (duration f_s0 : F) (next : phase_t)
    : M SimulationState unit :=
  modify (fun s => set_phase_counter (phase_counter s + 1) s) ;;;
  n <- gets phase_counter ;;
  if geb (of_Z n) (duration * f_s0)
  then modify (fun s => set_phase_counter 1 (set_phase next s))
  else ret tt.

(** The branch [if self.phase == 'exhale']. It yields the three
    locals [current_flow], [current_volume], [current_pressure]. *)
Definition exhale_branch (lung : Lung.t) (ventilator : Ventilator.t)
    (k : kwargs) (current_volume current_pressure : F)
    : M SimulationState (F * F * F) :=
  n <- gets i ;;
  let current_time := of_Z n * dt k in
  pc <- gets phase_counter ;;
  (if Z.eqb pc 0 then modify (set_start_phase_time current_time)
   else ret tt) ;;;
  start <- gets start_phase_time ;;
  current_flow <- lift (_expiratory_flow lung ventilator current_pressure
                          start current_time) ;;
  let current_volume := current_volume + current_flow * dt k in
  q <- lift (div_or_raise current_volume (Lung.c_rs lung)) ;;
  let current_pressure :=
    current_flow * Lung._r_aw lung + q + Ventilator.peep ventilator in
  count_phase (Ventilator.t_e ventilator) (f_s k) inhale ;;;
  ret (current_flow, current_volume, current_pressure).

(** The branch [elif self.phase == 'inhale']. *)
Definition inhale_branch (lung : Lung.t) (ventilator : Ventilator.t)
    (k : kwargs) (current_volume : F)
    : M SimulationState (F * F * F) :=
  let current_flow := Ventilator._f_i ventilator in
  n <- gets i ;;
  let current_volume :=
    if Z.ltb 0 n then current_volume + (current_flow * dt k)
    else of_Z 0 in
  q <- lift (div_or_raise current_volume (Lung.c_rs lung)) ;;
  let current_pressure :=
    current_flow * Lung._r_aw lung + q + Ventilator.peep ventilator in
  count_phase (Ventilator.t_i ventilator) (f_s k) pause ;;;
  ret (current_flow, current_volume, current_pressure).

(** The branch [elif self.phase == 'pause']. *)
Definition pause_branch (lung : Lung.t) (ventilator : Ventilator.t)
    (k : kwargs) (current_volume : F)
    : M SimulationState (F * F * F) :=
  let current_flow := of_Z 0 in
  let current_volume := current_volume + (current_flow * dt k) in
  q <- lift (div_or_raise current_volume (Lung.c_rs lung)) ;;
  let current_pressure :=
    Lung._r_aw lung * current_flow + q + Ventilator.peep ventilator in
  count_phase (Ventilator.t_ip ventilator) (f_s k) exhale ;;;
  ret (current_flow, current_volume, current_pressure).

(** The [if]/[elif] chain on [self.phase], lines 165 to 213. *)
Definition phase_equations (lung : Lung.t) (ventilator : Ventilator.t)
    (k : kwargs) (current_volume current_pressure : F)
    : M SimulationState (F * F * F) :=
  fun s =>
    match phase s with
    | exhale => exhale_branch lung ventilator k current_volume current_pressure s
    | inhale => inhale_branch lung ventilator k current_volume s
    | pause => pause_branch lung ventilator k current_volume s
    end.

(** [simulation_model(u_t, current_flow, current_volume,
    current_pressure, **kwargs)] *)
Definition simulation_model
    (u_t current_flow current_volume current_pressure : F) (k : kwargs)
    : M SimulationState observation :=
  lung <- lift (Lung.init (r_aw k) (c_rs k)) ;;
  ventilator <- lift (Ventilator.init (v_t k) (peep k) (rr k)
                        (t_i k) (t_ip k)) ;;
  locals <- phase_equations lung ventilator k
              current_volume current_pressure ;;
  let '(current_flow, current_volume, current_pressure) := locals in
  current_flow <- lift (div_or_raise (current_flow * of_Z 60) (of_Z 1000)) ;;
  modify (fun s => set_i (i s + 1) s) ;;;
  ret (mkObs current_flow current_volume current_pressure).

(** The phase that follows a phase, and the duration the counter is
    compared with in each phase. *)
Definition next_phase (p : phase_t) : phase_t :=
  match p with
  | exhale => inhale
  | inhale => pause
  | pause => exhale
  end.

Definition phase_duration (ventilator : Ventilator.t) (p : phase_t) : F :=
  match p with
  | exhale => Ventilator.t_e ventilator
  | inhale => Ventilator.t_i ventilator
  | pause => Ventilator.t_ip ventilator
  end.

(** The states the simulator can be in: the initial one, and the
    fields left behind by any call on such a state, whatever its
    arguments and whether or not it raised. *)
Inductive reachable : SimulationState -> Prop :=
| reachable_initial : reachable initial_state
| reachable_call : forall s u_t flow volume pressure k,
    reachable s ->
    reachable (fst (simulation_model u_t flow volume pressure k s)).

(** The arguments of one call. *)
Record call_args : Type := mkArgs {
  arg_u_t : F;
  arg_flow : F;
  arg_volume : F;
  arg_pressure : F;
  arg_kwargs : kwargs
}.

Definition step (a : call_args) : M SimulationState observation :=
  simulation_model (arg_u_t a) (arg_flow a) (arg_volume a)
    (arg_pressure a) (arg_kwargs a).

(** The fields a run of calls leaves, and what each call of the run
    gave back. *)
Fixpoint run (calls : list call_args) (s : SimulationState)
    : SimulationState :=
  match calls with
  | [] => s
  | a :: rest => run rest (fst (step a s))
  end.

Fixpoint trace (calls : list call_args) (s : SimulationState)
    : list (result observation) :=
  match calls with
  | [] => []
  | a :: rest => snd (step a s) :: trace rest (fst (step a s))
  end.

(** Two calls that agree on everything the body reads: the volume,
    the pressure, and the lung, ventilator and sampling keywords. The
    action [u_t], the flow and the patient and blower keywords are
    free. *)
Definition same_read_inputs (a b : call_args) : Prop :=
  arg_volume a = arg_volume b
  /\ arg_pressure a = arg_pressure b
  /\ r_aw (arg_kwargs a) = r_aw (arg_kwargs b)
  /\ c_rs (arg_kwargs a) = c_rs (arg_kwargs b)
  /\ v_t (arg_kwargs a) = v_t (arg_kwargs b)
  /\ peep (arg_kwargs a) = peep (arg_kwargs b)
  /\ rr (arg_kwargs a) = rr (arg_kwargs b)
  /\ t_i (arg_kwargs a) = t_i (arg_kwargs b)
  /\ t_ip (arg_kwargs a) = t_ip (arg_kwargs b)
  /\ dt (arg_kwargs a) = dt (arg_kwargs b)
  /\ f_s (arg_kwargs a) = f_s (arg_kwargs b).

(** The fields a call that returns leaves, when no start time is
    latched: the tick index one up, and the counter one up or, when
    it has reached the duration of the phase, the next phase with the
    counter at 1. *)
Definition advance (ventilator : Ventilator.t) (f_s0 : F)
    (s : SimulationState) : SimulationState :=
  if geb (of_Z (phase_counter s + 1))
         (phase_duration ventilator (phase s) * f_s0)
  then mkState (i s + 1) 1 (next_phase (phase s)) (start_phase_time s)
  else mkState (i s + 1) (phase_counter s + 1) (phase s)
               (start_phase_time s).

End CpapEnv.

(** *** [create_cpap_environment] *)

Section Factory.
Context {F : Type} `{Num F}.
Local Open Scope num_scope.
Local Open Scope string_scope.

(** The collaborators of the factory, each by its call:
    - [Scheduller_init set_points intervals] is
      [Scheduller(set_points, intervals)];
    - [EnsembleGenerator_init distributions seed] is
      [EnsembleGenerator(distributions, seed)] and [generate_sample]
      its method;
    - [gymnasium_make id scheduller params x_size tracked_point] is
      the call of [gymnasium.make] (its other keywords are the fixed
      [None] and the two enumeration members);
    - [DictToArrayWrapper env] wraps the environment;
    - [sympy_coeffs] is the pair of coefficient lists
      [numerators.all_coeffs()], [denominators.all_coeffs()] of the
      symbolic model, and [evalf coef (c, rp, tb, kb, rl)] is
      [coef.evalf(subs=...)] read as a float;
    - [ct_TransferFunction num den] is [ct.TransferFunction(num, den)];
    - the last five are the library calls of the tuners. *)
Variables Sched Ens Sample Env Coef Plant : Type.
Variable Scheduller_init : list F -> list F -> result Sched.
Variable EnsembleGenerator_init : list (string * F) -> Z -> result Ens.
Variable generate_sample : Ens -> result Sample.
Variable gymnasium_make :
  string -> Sched -> Sample -> Z -> string -> result Env.
Variable DictToArrayWrapper : Env -> result Env.
Variable sympy_coeffs : result (list Coef * list Coef).
Variable evalf : Coef -> F * F * F * F * F -> result F.
Variable ct_TransferFunction : list F -> list F -> result Plant.
Variable step_response : Plant -> list F * list F.
Variable step_info_peak : Plant -> F.
Variable np_gradient : list F -> list F -> list F.
Variable closed_loop_step_response :
  PIDController.TransferFunction F -> Plant -> list F.
Variable minimize :
  (F * F * F -> F) -> F * F * F -> string -> result (F * F * F).

(** The table [patient]: name, then [rp], [c], [rl]; [rl0] is the
    value of [48.5 * 60 / 1000], the same in every row. *)
Definition patient (rl0 : F) : list (string * (F * F * F)) :=
  [ ("Heated Humidifier, Normal", (lit 10e-3, of_Z 50, rl0));
    ("Heated Humidifier, COPD", (lit 20e-3, of_Z 60, rl0));
    ("Heated Humidifier, mild ARDS", (lit 10e-3, of_Z 45, rl0));
    ("Heated Humidifier, moderate ARDS", (lit 10e-3, of_Z 40, rl0));
    ("Heated Humidifier, severe ARDS", (lit 10e-3, of_Z 35, rl0));
    ("Heat Moisture Exchange, Normal", (lit 15e-3, of_Z 50, rl0));
    ("Heat Moisture Exchange, COPD", (lit 25e-3, of_Z 60, rl0));
    ("Heat Moisture Exchange, mild ARDS", (lit 15e-3, of_Z 45, rl0));
    ("Heat Moisture Exchange, moderate ARDS", (lit 15e-3, of_Z 40, rl0));
    ("Heat Moisture Exchange, severe ARDS", (lit 15e-3, of_Z 35, rl0)) ].

(** [d[key]] on such a table. *)
Fixpoint lookup {A} (key : string) (d : list (string * A)) : option A :=
  match d with
  | [] => None
  | (k, v) :: rest => if String.eqb key k then Some v else lookup key rest
  end.

(** The dictionary [distributions]: every entry is a constant
    distribution, kept as its name and its constant. The entry [tb]
    is given [_rp], as in the source. *)
Definition distributions (_rp _c _rl _kb sample_frequency dt : F)
    : list (string * F) :=
  [ ("rp", _rp); ("c", _c); ("rl", _rl);
    ("tb", _rp); ("kb", _kb);
    ("r_aw", of_Z 3); ("c_rs", of_Z 60);
    ("v_t", of_Z 350); ("peep", of_Z 5); ("rr", of_Z 15);
    ("t_i", of_Z 1); ("t_ip", lit 0.25);
    ("f_s", sample_frequency); ("dt", dt) ].

(** The loop over [zip(numerators, denominators)], lines 375 to 379:
    it appends one evaluated coefficient to each list per pair and
    stops with the shorter list. *)
Fixpoint fill (subs : F * F * F * F * F) (numerators denominators : list Coef)
    (filled_numerators filled_denominators : list F)
    : result (list F * list F) :=
  match numerators, denominators with
  | numerator_coef :: ns, denominator_coef :: ds =>
      result_bind (evalf numerator_coef subs) (fun n =>
      result_bind (evalf denominator_coef subs) (fun d =>
      fill subs ns ds (filled_numerators ++ [n])
                      (filled_denominators ++ [d])))
  | _, _ => Returned (filled_numerators, filled_denominators)
  end.

(** The plant the factory hands to the tuner, lines 357 to 383. *)
Definition cpap_model (subs : F * F * F * F * F) : result Plant :=
  result_bind sympy_coeffs (fun '(numerators, denominators) =>
  result_bind (fill subs numerators denominators [] []) (fun '(fn, fd) =>
  ct_TransferFunction fn fd)).

(** [create_cpap_environment()] *)
Definition create_cpap_environment
    : result (Env * Sched * Ens * PIDController.trained F) :=
  result_bind (div_or_raise (lit 48.5 * of_Z 60) (of_Z 1000)) (fun rl0 =>
  match lookup "Heated Humidifier, Normal" (patient rl0) with
  | None => Raised IndexError
  | Some (_rp, _c, _rl) =>
  let _tb := lit 10e-3 in
  let _kb := lit 0.5 in
  let sample_frequency := of_Z 30 in
  result_bind (div_or_raise (of_Z 1) sample_frequency) (fun dt =>
  result_bind (Scheduller_init [of_Z 5; of_Z 15; of_Z 10]
                 [of_Z 500; of_Z 500; of_Z 500]) (fun scheduller =>
  result_bind (EnsembleGenerator_init
                 (distributions _rp _c _rl _kb sample_frequency dt) 42)
    (fun ensemble =>
  result_bind (generate_sample ensemble) (fun params =>
  result_bind (gymnasium_make "CpapEnv-V0" scheduller params 3 "x3")
    (fun env =>
  result_bind (DictToArrayWrapper env) (fun env =>
  result_bind (cpap_model (_c, _rp, _tb, _kb, _rl)) (fun model =>
  result_bind
    (PIDController.train_pid_controller step_response step_info_peak
       np_gradient closed_loop_step_response minimize
       model "ZN" "PI" (of_Z 0) (of_Z 0) (of_Z 0)) (fun trained_pid =>
  Returned (env, scheduller, ensemble, trained_pid)))))))))
  end).

End Factory.
End CpapEnv.

(** ** Exact rational arithmetic *)

(** [numpy.exp] has no rational value; to run the simulator on [Q]
    the instance takes the Taylor polynomial of degree two. No
    statement below depends on this choice. *)
Definition Qexp2 (x : Q) : Q := Qred (1 + x + x * x / 2).

Definition Qdiv_opt (a b : Q) : option Q :=
  if Qeq_bool b 0 then None else Some (Qred (a / b)).

Definition Qsign (x : Q) : Q :=
  match x ?= 0 with
  | Lt => -1
  | Eq => 0
  | Gt => 1
  end.

(** [np.clip(x, lo, hi)] is [minimum(maximum(x, lo), hi)]. *)
Definition Qclip (x lo hi : Q) : Q := Qmin (Qmax x lo) hi.

#[export] Instance Num_Q : Num Q := {
  lit := fun q => q;
  add := fun a b => Qred (a + b);
  sub := fun a b => Qred (a - b);
  mul := fun a b => Qred (a * b);
  neg := fun a => Qred (- a);
  div := Qdiv_opt;
  leb := Qle_bool;
  truthy := fun a => negb (Qeq_bool a 0);
  np_exp := Qexp2;
  np_clip := Qclip;
  np_sign := Qsign;
  np_abs := Qabs
}.

(** Two gain triples with equal rational components. *)
Definition gains_eq (g g' : Q * Q * Q) : Prop :=
  let '(kp, ki, kd) := g in
  let '(kp', ki', kd') := g' in
  kp == kp' /\ ki == ki' /\ kd == kd'.

(** A phase whose duration times the sample frequency is [d] lasts
    [n] calls: the counter, set to 1 on entry, is [n + 1] when it
    first reaches [d]. *)
Definition lasts (d : Q) (n : nat) : Prop :=
  (1 <= n)%nat
  /\ (n = 1%nat \/ inject_Z (Z.of_nat n) < d)
  /\ d <= inject_Z (Z.of_nat n + 1).

(** ** Concrete inputs *)

Module Inputs.
Local Open Scope Q_scope.

(** A PI controller and a PID controller with gains 2, 3, 5, bounds
    [-1, 1], as [PIDController(2, 3, 5, [-1, 1], dt, ...)] builds them. *)
Definition pi_controller : PIDController.t (F := Q) :=
  PIDController.init 2 3 5 (-1, 1) 1 false.

Definition pid_controller : PIDController.t (F := Q) :=
  PIDController.init 2 3 5 (-1, 1) (1 # 2) true.

(** The same with [dt = 0]. *)
Definition pid_controller_dt0 : PIDController.t (F := Q) :=
  PIDController.init 2 3 5 (-1, 1) 0 true.

(** A plant given by the samples of its step response: times 0 to 7
    and outputs rising from 0 to the peak 4, with the inflexion at
    the third sample. *)
Record sampled_plant : Type := mkSampled {
  sample_time : list Q;
  sample_y : list Q;
  sample_peak : Q
}.

Definition plant : sampled_plant :=
  mkSampled [0; 1; 2; 3; 4; 5; 6; 7]
            [0; 0; 1; 2; 7 # 2; 39 # 10; 4; 4]
            4.

(** A step response that never changes concavity. *)
Definition flat_plant : sampled_plant :=
  mkSampled [0; 1; 2; 3] [0; 0; 0; 0] 0.

Definition step_response (p : sampled_plant) : list Q * list Q :=
  (sample_time p, sample_y p).

Definition step_info_peak (p : sampled_plant) : Q := sample_peak p.

(** [np.gradient(y, x)] on rationals: one-sided differences at the
    two ends, and inside the second-order formula for uneven steps
    [hs = x[k] - x[k-1]], [hd = x[k+1] - x[k]]. *)
Definition gradient_inner (xp x xn yp y yn : Q) : Q :=
  let hs := x - xp in
  let hd := xn - x in
  Qred ((hs * hs * yn + (hd * hd - hs * hs) * y - hd * hd * yp)
        / (hs * hd * (hd + hs))).

Fixpoint gradient_from (xp yp : Q) (xs ys : list Q) : list Q :=
  match xs, ys with
  | x :: ((xn :: _) as xt), y :: ((yn :: _) as yt) =>
      gradient_inner xp x xn yp y yn :: gradient_from x y xt yt
  | [x], [y] => [Qred ((y - yp) / (x - xp))]
  | _, _ => []
  end.

Definition np_gradient (ys xs : list Q) : list Q :=
  match xs, ys with
  | x0 :: ((x1 :: _) as xt), y0 :: ((y1 :: _) as yt) =>
      Qred ((y1 - y0) / (x1 - x0)) :: gradient_from x0 y0 xt yt
  | _, _ => []
  end.

(** A closed loop that answers with the plant's own samples, and a
    search that stops at its starting point. *)
Definition closed_loop_step_response
    (pid : PIDController.TransferFunction Q) (p : sampled_plant) : list Q :=
  sample_y p.

Definition minimize (f : Q * Q * Q -> Q) (x0 : Q * Q * Q)
    (method : string) : result (Q * Q * Q) :=
  Returned x0.

(** The two tuners on these. *)
Definition ZN (p : sampled_plant) (pid_type : string) (plot : bool)
    : result (Q * Q * Q) :=
  PIDController.train_pid_with_ZN_method
    step_response step_info_peak np_gradient p pid_type plot.

Definition train (p : sampled_plant) (method pid_type : string)
    (kp ki kd : Q) : result (PIDController.trained Q) :=
  PIDController.train_pid_controller
    step_response step_info_peak np_gradient
    closed_loop_step_response minimize p method pid_type kp ki kd.

(** The keyword arguments [create_cpap_environment] feeds the
    simulator: sample frequency 30 Hz, [dt = 1/30], the lung and the
    ventilator of the ensemble. *)
Definition ensemble_params : CpapEnv.kwargs (F := Q) :=
  CpapEnv.mkKwargs 0.01 50 2.91 0.01 0.5 3 60 350 5 15 1 0.25 (1 / 30) 30.

(** [n] calls in a row on constant arguments: flow 0, volume 0 and
    the pressure at PEEP. *)
Fixpoint ticks (n : nat) (k : CpapEnv.kwargs (F := Q))
    (s : CpapEnv.SimulationState (F := Q)) : CpapEnv.SimulationState :=
  match n with
  | O => s
  | S n' => ticks n' k (fst (CpapEnv.simulation_model 0 0 0 5 k s))
  end.

(** A state in the inhale phase, as the simulator has it after its
    first exhale. *)
Definition inhaling : CpapEnv.SimulationState (F := Q) :=
  CpapEnv.mkState 82 1 inhale 0.

End Inputs.

(** * Theorems *)

(** ** The controller *)

Section ControllerFacts.
Context {F : Type} `{Num F}.
Local Open Scope num_scope.
Import PIDController.

(** C1. In PI mode ([use_derivative = False]) a tick adds
    [clip(e * dt, min, max)] to the stored integral -- the clamp is
    on the increment, the sum itself is not clamped -- and returns
    [Kp * e + Ki * integral] with the updated integral; it also
    stores [e] as the previous error. This holds for every error
    value and every arithmetic. *)
Theorem PI_tick :
  forall (c : PIDController.t) (e : F),
    use_derivative c = false ->
    let integral' := integral c + np_clip (e * dt c) (min c) (max c) in
    call e c =
      (set_previous_error e (set_integral integral' c),
       Returned (PyNum (Kp c * e + Ki c * integral'))).
Proof.
  intros c e Hmode integral'.
  unfold call, formula, bind.
  rewrite Hmode.
  unfold _PI_formula, accumulate, bind, modify, gets, ret.
  cbn.
  reflexivity.
Qed.

(** What a PID tick leaves behind when the derivative cannot be
    taken: the integral is already updated, the previous error is
    not. *)
Lemma PID_tick_raises :
  forall (c : PIDController.t) (e : F),
    use_derivative c = true ->
    div (e - previous_error c) (dt c) = None ->
    call e c =
      (set_integral (integral c + np_clip (e * dt c) (min c) (max c)) c,
       Raised ZeroDivisionError).
Proof.
  intros c e Hmode Hdiv.
  unfold call, formula, bind.
  rewrite Hmode.
  unfold _PID_formula, _PID_locals, accumulate, bind, modify, gets, lift,
    div_or_raise.
  cbn.
  rewrite Hdiv.
  reflexivity.
Qed.

(** C2. In derivative mode ([use_derivative = True]) the call is
    [_PID_formula]: it runs the three statements of the formula and
    hands back [None], and it raises exactly when they do. Those
    statements compute [derivative = (e - previous_error) / dt], with
    the previous error still in place, and the value
    [Kp*e + Ki*integral + Kd*derivative]. When the division is
    defined the call returns [None] and only then stores [e] as the
    previous error, so the derivative of the next tick is taken
    against [e]; when it is not, the call raises
    [ZeroDivisionError] with the integral already updated and the
    previous error untouched. *)
Theorem PID_tick :
  forall (c : PIDController.t) (e : F),
    use_derivative c = true ->
    let integral' := integral c + np_clip (e * dt c) (min c) (max c) in
    let acc := set_integral integral' c in
    formula e c =
      match _PID_locals e c with
      | (c', Returned _) => (c', Returned PyNone)
      | (c', Raised x) => (c', Raised x)
      | (c', Exited) => (c', Exited)
      end
    /\ match div (e - previous_error c) (dt c) with
       | Some d =>
           _PID_locals e c =
             (acc, Returned (d, Kp c * e + Ki c * integral' + Kd c * d))
           /\ call e c = (set_previous_error e acc, Returned PyNone)
           /\ forall e2 : F,
                derivative_of (fst (call e c)) e2 = div (e2 - e) (dt c)
       | None =>
           _PID_locals e c = (acc, Raised ZeroDivisionError)
           /\ call e c = (acc, Raised ZeroDivisionError)
       end.
Proof.
  intros c e Hmode integral' acc.
  assert (Hformula : formula e c =
            match _PID_locals e c with
            | (c', Returned _) => (c', Returned PyNone)
            | (c', Raised x) => (c', Raised x)
            | (c', Exited) => (c', Exited)
            end).
  { unfold formula. rewrite Hmode. unfold _PID_formula, bind, ret.
    destruct (_PID_locals e c) as [c' [v | x |]]; reflexivity. }
  split; [exact Hformula |].
  assert (Hlocals : _PID_locals e c =
            match div (e - previous_error c) (dt c) with
            | Some d =>
                (acc, Returned (d, Kp c * e + Ki c * integral' + Kd c * d))
            | None => (acc, Raised ZeroDivisionError)
            end).
  { unfold _PID_locals, accumulate, bind, modify, gets, lift, div_or_raise,
      ret.
    cbn. destruct (div (e - previous_error c) (dt c)); reflexivity. }
  assert (Hcall : call e c =
            match formula e c with
            | (c', Returned v) => (set_previous_error e c', Returned v)
            | (c', Raised x) => (c', Raised x)
            | (c', Exited) => (c', Exited)
            end).
  { unfold call, bind, modify, ret.
    destruct (formula e c) as [c' [v | x |]]; reflexivity. }
  rewrite Hcall, Hformula, Hlocals.
  destruct (div (e - previous_error c) (dt c)) as [d |].
  - split; [reflexivity |]. split; [reflexivity |].
    intro e2. reflexivity.
  - split; reflexivity.
Qed.

End ControllerFacts.

Section ControllerOnQ.
Local Open Scope Q_scope.
Import PIDController.

(** The operations of the rational instance, up to [==]. *)
Lemma Qadd_num : forall a b : Q, (a + b)%num == a + b.
Proof. intros a b. apply Qred_correct. Qed.

Lemma Qsub_num : forall a b : Q, (a - b)%num == a - b.
Proof. intros a b. apply Qred_correct. Qed.

Lemma Qmul_num : forall a b : Q, (a * b)%num == a * b.
Proof. intros a b. apply Qred_correct. Qed.

Lemma Qdiv_num :
  forall a b q : Q, div a b = Some q -> ~ b == 0 /\ q == a / b.
Proof.
  intros a b q. cbn [div Num_Q]. unfold Qdiv_opt.
  destruct (Qeq_bool b 0) eqn:Hb; [discriminate |].
  intro Hq.
  assert (Hred : q = Qred (a / b)) by congruence.
  split.
  - intro Hz. apply Qeq_bool_iff in Hz. congruence.
  - rewrite Hred. apply Qred_correct.
Qed.

Lemma Qdiv_defined :
  forall a b : Q, ~ b == 0 -> div a b = Some (Qred (a / b)).
Proof.
  intros a b Hb. cbn [div Num_Q]. unfold Qdiv_opt.
  destruct (Qeq_bool b 0) eqn:Hz; [| reflexivity].
  apply Qeq_bool_iff in Hz. contradiction.
Qed.

Lemma Qclip_bounds :
  forall x lo hi : Q, lo <= hi -> lo <= Qclip x lo hi /\ Qclip x lo hi <= hi.
Proof.
  intros x lo hi Hle. unfold Qclip. split.
  - apply Q.min_glb; [apply Q.le_max_r | exact Hle].
  - apply Q.le_min_r.
Qed.

(** With exact arithmetic and [min <= max], the amount one PI tick
    adds to the integral lies within [[min, max]]. *)
Lemma PI_increment_within_bounds :
  forall (c : PIDController.t (F := Q)) (e : Q),
    use_derivative c = false ->
    min c <= max c ->
    let c' := fst (call e c) in
    min c <= integral c' - integral c /\ integral c' - integral c <= max c.
Proof.
  intros c e Hmode Hle c'.
  assert (Hc' : integral c' ==
                integral c + Qclip (e * dt c)%num (min c) (max c)).
  { subst c'. unfold call, formula, bind. rewrite Hmode.
    cbn [_PI_formula accumulate bind modify gets ret fst integral
         set_previous_error set_integral].
    apply Qadd_num. }
  destruct (Qclip_bounds (e * dt c)%num Hle) as [Hlo Hhi].
  rewrite Hc'. split; lra.
Qed.

(** The sum itself is not clamped: two ticks with error 10 and bounds
    [[-1, 1]] leave the integral at 2. *)
Lemma PI_integral_exceeds_max :
  let c1 := fst (call 10 Inputs.pi_controller) in
  let c2 := fst (call 10 c1) in
  integral c2 = 2 /\ max c2 = 1 /\ snd (call 10 c1) = Returned (PyNum 26).
Proof. vm_compute. repeat split. Qed.

(** C1 at error 10 on the PI controller of [Inputs]. *)
Lemma PI_tick_witness :
  call 10 Inputs.pi_controller =
    (set_previous_error 10 (set_integral (0 + Qclip (10 * 1) (-1) 1)%num
       Inputs.pi_controller),
     Returned (PyNum (2 * 10 + 3 * (0 + Qclip (10 * 1) (-1) 1))%num)).
Proof.
  exact (PI_tick Inputs.pi_controller 10 eq_refl).
Defined.

(** C2 on the PID controller of [Inputs] at error 10: with
    [dt = 1/2] the derivative is 20 and the dropped value 123, and
    the call returns [None]; with [dt = 0] the call raises. *)
Lemma PID_tick_witness :
  (formula 10 Inputs.pid_controller =
     (set_integral 1 Inputs.pid_controller, Returned PyNone)
   /\ _PID_locals 10 Inputs.pid_controller =
        (set_integral 1 Inputs.pid_controller, Returned (20, 123))
   /\ call 10 Inputs.pid_controller =
        (set_previous_error 10 (set_integral 1 Inputs.pid_controller),
         Returned PyNone)
   /\ forall e2 : Q,
        derivative_of (fst (call 10 Inputs.pid_controller)) e2 =
        div (e2 - 10)%num (1 # 2))
  /\ (formula 10 Inputs.pid_controller_dt0 =
        (set_integral 0 Inputs.pid_controller_dt0, Raised ZeroDivisionError)
      /\ _PID_locals 10 Inputs.pid_controller_dt0 =
           (set_integral 0 Inputs.pid_controller_dt0,
            Raised ZeroDivisionError)
      /\ call 10 Inputs.pid_controller_dt0 =
           (set_integral 0 Inputs.pid_controller_dt0,
            Raised ZeroDivisionError)).
Proof.
  split.
  - exact (PID_tick Inputs.pid_controller 10 eq_refl).
  - exact (PID_tick Inputs.pid_controller_dt0 10 eq_refl).
Defined.

(** With [dt = 0] the PID tick raises after the integral is updated
    and before the previous error is. *)
Lemma PID_tick_dt0 :
  call 10 Inputs.pid_controller_dt0 =
    (set_integral 0 Inputs.pid_controller_dt0, Raised ZeroDivisionError).
Proof.
  exact (PID_tick_raises Inputs.pid_controller_dt0 10 eq_refl eq_refl).
Qed.

End ControllerOnQ.

(** ** The tuners *)

Section TunerFacts.
Context {F : Type} `{Num F}.
Local Open Scope num_scope.
Local Open Scope string_scope.
Import PIDController.

Variable Plant : Type.
Variable step_response : Plant -> list F * list F.
Variable step_info_peak : Plant -> F.
Variable np_gradient : list F -> list F -> list F.
Variable closed_loop_step_response : TransferFunction F -> Plant -> list F.
Variable minimize :
  (F * F * F -> F) -> F * F * F -> string -> result (F * F * F).

Local Abbreviation ZN :=
  (train_pid_with_ZN_method step_response step_info_peak np_gradient).
Local Abbreviation analyse :=
  (analyse step_response step_info_peak np_gradient).
Local Abbreviation train :=
  (train_pid_controller step_response step_info_peak np_gradient
     closed_loop_step_response minimize).

(** Without the plot the tuner is the analysis followed by the table. *)
Lemma ZN_without_plot :
  forall (plant : Plant) (pid_type : string),
    ZN plant pid_type false =
    result_bind (analyse plant)
      (fun rc => gain_table pid_type (L rc) (T rc)).
Proof.
  intros plant pid_type. unfold train_pid_with_ZN_method.
  destruct (analyse plant) as [rc | e |]; cbn; try reflexivity.
  destruct (gain_table pid_type (L rc) (T rc)); reflexivity.
Qed.

(** With the plot every return of the tuner becomes an exit. *)
Lemma ZN_with_plot :
  forall (plant : Plant) (pid_type : string),
    ZN plant pid_type true =
    match ZN plant pid_type false with
    | Returned _ => Exited
    | Raised e => Raised e
    | Exited => Exited
    end.
Proof.
  intros plant pid_type. unfold train_pid_with_ZN_method.
  destruct (analyse plant) as [rc | e |]; cbn; try reflexivity.
  destruct (gain_table pid_type (L rc) (T rc)); reflexivity.
Qed.

(** The gains in the form the source computes them, for every
    arithmetic: [q] is [T / L] and [r] is [L / 0.3]. *)
Lemma ZN_gains_as_computed :
  forall (plant : Plant) (rc : reaction_curve) (q r : F),
    analyse plant = Returned rc ->
    div (T rc) (L rc) = Some q ->
    div (L rc) (lit 0.3) = Some r ->
    ZN plant "P" false = Returned (q, of_Z 0, of_Z 0)
    /\ ZN plant "PI" false = Returned (lit 0.9 * q, r, of_Z 0)
    /\ ZN plant "PID" false =
         Returned (lit 1.2 * q, of_Z 2 * L rc, lit 0.5 * L rc).
Proof.
  intros plant rc q r Hrc Hq Hr.
  rewrite !ZN_without_plot, Hrc. cbn [result_bind].
  unfold gain_table, div_or_raise.
  cbn [String.eqb Ascii.eqb Bool.eqb].
  rewrite Hq, Hr. cbn [result_bind].
  repeat split; reflexivity.
Qed.

(** C5, on the code: whenever the tuner returns gains with the plot
    off, the same call with the plot on returns nothing and ends the
    process. *)
Theorem ZN_plot_exits :
  forall (plant : Plant) (pid_type : string) (gains : F * F * F),
    ZN plant pid_type false = Returned gains ->
    ZN plant pid_type true = Exited
    /\ ZN plant pid_type true <> ZN plant pid_type false.
Proof.
  intros plant pid_type gains Hoff.
  assert (Hon : ZN plant pid_type true = Exited).
  { rewrite ZN_with_plot, Hoff. reflexivity. }
  split; [exact Hon |].
  rewrite Hon, Hoff. discriminate.
Qed.

(** C10. The entry point with [pid_training_method = "ZN"] never
    returns a controller: it runs the tuner with the default
    [plot = True], so its outcome is the outcome of the tuner without
    the plot with every return replaced by the end of the process; it
    is an exit or an exception, for every plant, family and initial
    gains. *)
Theorem ZN_entry_never_returns :
  forall (plant : Plant) (pid_type : string) (kp ki kd : F),
    let r := train plant "ZN" pid_type kp ki kd in
    r = match ZN plant pid_type false with
        | Returned _ => Exited
        | Raised e => Raised e
        | Exited => Exited
        end
    /\ (r = Exited \/ exists e, r = Raised e).
Proof.
  intros plant pid_type kp ki kd r.
  assert (Hr : r = match ZN plant pid_type false with
                   | Returned _ => Exited
                   | Raised e => Raised e
                   | Exited => Exited
                   end).
  { subst r. unfold train_pid_controller.
    change (String.eqb "ZN" "ZN") with true. cbv iota.
    unfold default_plot. rewrite ZN_with_plot.
    destruct (ZN plant pid_type false); reflexivity. }
  split; [exact Hr |].
  rewrite Hr.
  destruct (ZN plant pid_type false) as [g | e |].
  - left. reflexivity.
  - right. exists e. reflexivity.
  - left. reflexivity.
Qed.

(** A family other than the three falls through the table. *)
Lemma gain_table_invalid :
  forall (pid_type : string) (L0 T0 : F),
    pid_type <> "P" -> pid_type <> "PI" -> pid_type <> "PID" ->
    gain_table pid_type L0 T0 =
    Raised (ValueError "Invalid PID type. Choose between 'P', 'PI' or 'PID'.").
Proof.
  intros pid_type L0 T0 HP HPI HPID. unfold gain_table.
  apply String.eqb_neq in HP, HPI, HPID.
  rewrite HP, HPI, HPID. reflexivity.
Qed.

(** The search branch never reads the family. *)
Lemma train_ignores_family :
  forall (plant : Plant) (method ty ty' : string) (kp ki kd : F),
    method <> "ZN" ->
    train plant method ty kp ki kd = train plant method ty' kp ki kd.
Proof.
  intros plant method ty ty' kp ki kd Hm. unfold train_pid_controller.
  apply String.eqb_neq in Hm. rewrite Hm. reflexivity.
Qed.

(** C8, as the code has it. For a family outside P, PI, PID: the ZN
    tuner raises [ValueError] once its reaction-curve analysis has
    returned, with or without the plot, and so does the entry point
    on its ZN branch; on the search branch the entry point does not
    read the family, and returns whatever the search gives. *)
Theorem invalid_family :
  forall pid_type : string,
    pid_type <> "P" -> pid_type <> "PI" -> pid_type <> "PID" ->
    (forall (plant : Plant) (plot : bool) (rc : reaction_curve),
        analyse plant = Returned rc ->
        ZN plant pid_type plot =
          Raised (ValueError
            "Invalid PID type. Choose between 'P', 'PI' or 'PID'.")
        /\ forall kp ki kd : F,
             train plant "ZN" pid_type kp ki kd =
               Raised (ValueError
                 "Invalid PID type. Choose between 'P', 'PI' or 'PID'."))
    /\ (forall (plant : Plant) (method : string) (kp ki kd : F),
          method <> "ZN" ->
          (forall ty' : string,
              train plant method pid_type kp ki kd =
              train plant method ty' kp ki kd)
          /\ forall gains : F * F * F,
               minimize (optimize_pid closed_loop_step_response plant)
                 (kp, ki, kd) method = Returned gains ->
               exists tr, train plant method pid_type kp ki kd = Returned tr).
Proof.
  intros pid_type HP HPI HPID. split.
  - intros plant plot rc Hrc.
    assert (HZN : forall b, ZN plant pid_type b =
              Raised (ValueError
                "Invalid PID type. Choose between 'P', 'PI' or 'PID'.")).
    { intro b. unfold train_pid_with_ZN_method. rewrite Hrc. cbn.
      rewrite gain_table_invalid by assumption. reflexivity. }
    split; [apply HZN |].
    intros kp ki kd. unfold train_pid_controller.
    change (String.eqb "ZN" "ZN") with true. cbv iota.
    rewrite HZN. reflexivity.
  - intros plant method kp ki kd Hm. split.
    + intro ty'. apply train_ignores_family; exact Hm.
    + intros [[gp gi] gd] Hmin. unfold train_pid_controller.
      apply String.eqb_neq in Hm. rewrite Hm, Hmin. cbn.
      eexists. reflexivity.
Qed.

End TunerFacts.

Section TunerOnQ.
Local Open Scope Q_scope.
Local Open Scope string_scope.
Import PIDController.

Variable Plant : Type.
Variable step_response : Plant -> list Q * list Q.
Variable step_info_peak : Plant -> Q.
Variable np_gradient : list Q -> list Q -> list Q.

Local Abbreviation ZN :=
  (train_pid_with_ZN_method step_response step_info_peak np_gradient).
Local Abbreviation analyse :=
  (analyse step_response step_info_peak np_gradient).

Lemma div_or_raise_Q :
  forall a b : Q, ~ b == 0 -> div_or_raise a b = Returned (Qred (a / b)).
Proof.
  intros a b Hb. unfold div_or_raise. rewrite (Qdiv_defined a Hb).
  reflexivity.
Qed.

(** At the default of the signature, [plot=True], a call that has
    its gains ends the process. *)
Lemma ZN_default_exits :
  forall (plant : Plant) (pid_type : string) (g : Q * Q * Q),
    ZN plant pid_type false = Returned g ->
    ZN plant pid_type default_plot = Exited.
Proof.
  intros plant pid_type g Hoff. unfold default_plot.
  rewrite ZN_with_plot, Hoff. reflexivity.
Qed.

(** C4, on the code. With exact arithmetic, when the tangent
    analysis of the reaction curve gives dead time [L] (not zero) and
    time constant [T], the tuner computes the gains of the table,
    [(T/L, 0, 0)] for "P", [(0.9*T/L, L/0.3, 0)] for "PI" and
    [(1.2*T/L, 2*L, 0.5*L)] for "PID", and returns them when it is
    called with the plot off; called as its signature has it, with
    the default [plot=True], it ends the process and returns no
    gains. *)
Theorem ZN_gain_table :
  forall (plant : Plant) (rc : reaction_curve),
    analyse plant = Returned rc ->
    ~ L rc == 0 ->
    (exists g, gains_eq g (T rc / L rc, 0, 0)
               /\ ZN plant "P" false = Returned g
               /\ ZN plant "P" default_plot = Exited)
    /\ (exists g, gains_eq g (0.9 * T rc / L rc, L rc / 0.3, 0)
                  /\ ZN plant "PI" false = Returned g
                  /\ ZN plant "PI" default_plot = Exited)
    /\ (exists g, gains_eq g (1.2 * T rc / L rc, 2 * L rc, 0.5 * L rc)
                  /\ ZN plant "PID" false = Returned g
                  /\ ZN plant "PID" default_plot = Exited).
Proof.
  intros plant rc Hrc HL.
  assert (H03 : ~ 0.3 == 0) by (intro Hz; discriminate Hz).
  assert (HP : ZN plant "P" false
               = Returned (Qred (T rc / L rc), of_Z 0, of_Z 0)).
  { rewrite ZN_without_plot, Hrc. cbn [result_bind].
    unfold gain_table. cbn [String.eqb Ascii.eqb Bool.eqb].
    rewrite (div_or_raise_Q (T rc) HL). reflexivity. }
  assert (HPI : ZN plant "PI" false
                = Returned ((0.9 * Qred (T rc / L rc))%num,
                            Qred (L rc / 0.3), of_Z 0)).
  { rewrite ZN_without_plot, Hrc. cbn [result_bind].
    unfold gain_table. cbn [String.eqb Ascii.eqb Bool.eqb].
    rewrite (div_or_raise_Q (T rc) HL). cbn [result_bind].
    cbn [lit Num_Q].
    rewrite (div_or_raise_Q (L rc) H03). reflexivity. }
  assert (HPID : ZN plant "PID" false
                 = Returned ((1.2 * Qred (T rc / L rc))%num,
                             (of_Z 2 * L rc)%num, (0.5 * L rc)%num)).
  { rewrite ZN_without_plot, Hrc. cbn [result_bind].
    unfold gain_table. cbn [String.eqb Ascii.eqb Bool.eqb].
    rewrite (div_or_raise_Q (T rc) HL). reflexivity. }
  split; [| split].
  - eexists. split; [| split; [exact HP | exact (ZN_default_exits _ _ HP)]].
    unfold gains_eq. rewrite Qred_correct.
    repeat split; reflexivity.
  - eexists. split; [| split; [exact HPI | exact (ZN_default_exits _ _ HPI)]].
    unfold gains_eq. rewrite Qmul_num, !Qred_correct.
    repeat split; try reflexivity. field. exact HL.
  - eexists.
    split; [| split; [exact HPID | exact (ZN_default_exits _ _ HPID)]].
    unfold gains_eq. rewrite !Qmul_num, Qred_correct.
    cbn [lit Num_Q of_Z inject_Z].
    repeat split; try reflexivity. field. exact HL.
Qed.

End TunerOnQ.

Section TunerExamples.
Local Open Scope Q_scope.
Local Open Scope string_scope.
Import PIDController.

(** The analysis of the sampled plant of [Inputs]: inflexion at
    [(2, 1)] with slope 1 and peak 4, so [L = 1] and [T = 4]. *)
Lemma analyse_plant :
  PIDController.analyse Inputs.step_response Inputs.step_info_peak
    Inputs.np_gradient Inputs.plant
  = Returned (mkCurve 2 1 1 4 1 4).
Proof. vm_compute. reflexivity. Qed.

(** C4 on the sampled plant ([L = 1], [T = 4]): the PI gains are
    3.6 and 1/0.3, returned with the plot off and lost at the
    default. *)
Lemma ZN_gain_table_witness :
  (exists g, gains_eq g (4 / 1, 0, 0)
             /\ Inputs.ZN Inputs.plant "P" false = Returned g
             /\ Inputs.ZN Inputs.plant "P" default_plot = Exited)
  /\ (exists g, gains_eq g (0.9 * 4 / 1, 1 / 0.3, 0)
                /\ Inputs.ZN Inputs.plant "PI" false = Returned g
                /\ Inputs.ZN Inputs.plant "PI" default_plot = Exited)
  /\ (exists g, gains_eq g (1.2 * 4 / 1, 2 * 1, 0.5 * 1)
                /\ Inputs.ZN Inputs.plant "PID" false = Returned g
                /\ Inputs.ZN Inputs.plant "PID" default_plot = Exited).
Proof.
  apply (@ZN_gain_table _ Inputs.step_response Inputs.step_info_peak
           Inputs.np_gradient Inputs.plant (mkCurve 2 1 1 4 1 4)).
  - vm_compute. reflexivity.
  - cbn [L]. intro Hz. discriminate Hz.
Defined.

(** C5 on the sampled plant, family "PI": gains with the plot off,
    the end of the process with the plot on. *)
Lemma ZN_plot_exits_witness :
  Inputs.ZN Inputs.plant "PI" false = Returned (18 # 5, 10 # 3, 0)
  /\ Inputs.ZN Inputs.plant "PI" true = Exited
  /\ Inputs.ZN Inputs.plant "PI" true <> Inputs.ZN Inputs.plant "PI" false.
Proof.
  assert (Hoff : Inputs.ZN Inputs.plant "PI" false
                 = Returned (18 # 5, 10 # 3, 0))
    by (vm_compute; reflexivity).
  split; [exact Hoff |].
  exact (@ZN_plot_exits Q _ _ Inputs.step_response Inputs.step_info_peak
           Inputs.np_gradient Inputs.plant "PI" _ Hoff).
Defined.

(** The entry point on the sampled plant with method "ZN". *)
Lemma ZN_entry_exits :
  Inputs.train Inputs.plant "ZN" "PI" 0 0 0 = Exited.
Proof. vm_compute. reflexivity. Qed.

(** C8 fails on the code: with method "BFGS" and the family "XYZ" the
    entry point returns a controller; and on a step response that
    never changes concavity the ZN tuner raises [IndexError] before it
    looks at the family. *)
Lemma unknown_family_accepted :
  Inputs.train Inputs.plant "BFGS" "XYZ" 0 0 0 =
    Returned (mkTrained (mkTF [0; 0; 0] [1; 0.001; 0.001]) 0 0 0)
  /\ Inputs.ZN Inputs.flat_plant "XYZ" false = Raised IndexError.
Proof. split; vm_compute; reflexivity. Qed.

(** C8 as amended, at the family "XYZ" on the sampled plant. *)
Lemma invalid_family_witness :
  Inputs.ZN Inputs.plant "XYZ" true =
    Raised (ValueError "Invalid PID type. Choose between 'P', 'PI' or 'PID'.")
  /\ Inputs.train Inputs.plant "ZN" "XYZ" 0 0 0 =
       Raised (ValueError
         "Invalid PID type. Choose between 'P', 'PI' or 'PID'.")
  /\ Inputs.train Inputs.plant "BFGS" "XYZ" 0 0 0 =
       Inputs.train Inputs.plant "BFGS" "PI" 0 0 0
  /\ exists tr, Inputs.train Inputs.plant "BFGS" "XYZ" 0 0 0 = Returned tr.
Proof.
  assert (HP : "XYZ" <> "P") by discriminate.
  assert (HPI : "XYZ" <> "PI") by discriminate.
  assert (HPID : "XYZ" <> "PID") by discriminate.
  assert (Hm : "BFGS" <> "ZN") by discriminate.
  destruct (@invalid_family Q _ _ Inputs.step_response
              Inputs.step_info_peak Inputs.np_gradient
              Inputs.closed_loop_step_response Inputs.minimize
              "XYZ" HP HPI HPID) as [Hzn Hsearch].
  destruct (Hzn Inputs.plant true _ analyse_plant) as [Htuner Hentry].
  destruct (Hsearch Inputs.plant "BFGS" 0 0 0 Hm) as [Hsame Hret].
  split; [exact Htuner |].
  split; [exact (Hentry 0 0 0) |].
  split; [exact (Hsame "PI") |].
  exact (Hret (0, 0, 0) eq_refl).
Defined.

End TunerExamples.

(** ** The plant simulator *)

Section SimulatorFacts.
Context {F : Type} `{Num F}.
Local Open Scope num_scope.
Local Open Scope Z_scope.
Import CpapEnv.

(** Unfolds one call of the simulator down to its divisions. *)
Ltac unfold_call :=
  unfold simulation_model, phase_equations, exhale_branch, inhale_branch,
    pause_branch, count_phase, _expiratory_flow, Lung.init, bind, lift,
    gets, modify, ret, result_bind, div_or_raise.

(** Splits on the outcome of every division still in the goal. *)
Ltac split_divisions :=
  repeat (match goal with
          | |- context [match div ?a ?b with _ => _ end] =>
              destruct (div a b) eqn:?
          | |- context [if ?b then _ else _] =>
              destruct b eqn:?
          end; cbn in *).

(** The end of a branch: the counter goes up by one, and when it has
    reached [duration * f_s] the phase changes and the counter
    restarts at 1. *)
Lemma count_phase_spec :
  forall (duration f_s0 : F) (next : phase_t) (s : SimulationState),
    count_phase duration f_s0 next s =
    (if geb (of_Z (phase_counter s + 1)) (duration * f_s0)%num
     then mkState (i s) 1 next (start_phase_time s)
     else mkState (i s) (phase_counter s + 1) (phase s) (start_phase_time s),
     Returned tt).
Proof.
  intros duration f_s0 next s.
  unfold count_phase, bind, modify, gets, ret. cbn.
  destruct (geb (of_Z (phase_counter s + 1)) (duration * f_s0)%num);
    reflexivity.
Qed.


(** One call keeps the latched start time and a counter of at least
    one, whatever its arguments and its outcome. *)
Lemma call_keeps_start_time :
  forall (u_t flow volume pressure : F) (k : kwargs) (s : SimulationState),
    1 <= phase_counter s ->
    let s' := fst (simulation_model u_t flow volume pressure k s) in
    start_phase_time s' = start_phase_time s /\ 1 <= phase_counter s'.
Proof.
  intros u_t flow volume pressure k [n pc ph start] Hpc. cbn in Hpc.
  assert (Hz : Z.eqb pc 0 = false) by (apply Z.eqb_neq; lia).
  unfold_call.
  destruct (div (r_aw k) (of_Z 1000)) as [conv |]; [| cbn; split; [reflexivity | lia]].
  destruct (Ventilator.init (v_t k) (peep k) (rr k) (t_i k) (t_ip k))
    as [ventilator | e |];
    [| cbn; split; [reflexivity | lia] | cbn; split; [reflexivity | lia]].
  destruct ph; cbn; rewrite ?Hz; cbn;
    split_divisions; cbn; split; try reflexivity; lia.
Qed.

(** The latch itself works: called in the exhale phase with the
    counter at 0, the simulator stores the current time [i * dt] as
    the phase start time (once [Lung] and [Ventilator] are built). *)
Lemma latch_when_counter_zero :
  forall (u_t flow volume pressure : F) (k : kwargs) (n : Z) (start : F)
         (lung : Lung.t) (ventilator : Ventilator.t),
    Lung.init (r_aw k) (c_rs k) = Returned lung ->
    Ventilator.init (v_t k) (peep k) (rr k) (t_i k) (t_ip k)
      = Returned ventilator ->
    start_phase_time
      (fst (simulation_model u_t flow volume pressure k
              (mkState n 0 exhale start)))
    = (of_Z n * dt k)%num.
Proof.
  intros u_t flow volume pressure k n start lung ventilator Hlung Hvent.
  unfold simulation_model, bind, lift. rewrite Hlung, Hvent.
  unfold phase_equations, exhale_branch, count_phase, _expiratory_flow,
    bind, lift, gets, modify, ret, result_bind, div_or_raise.
  cbn. split_divisions; reflexivity.
Qed.

(** The invariant of the reachable states. *)
Lemma reachable_invariant :
  forall s : SimulationState,
    reachable s ->
    start_phase_time s = of_Z 0 /\ 1 <= phase_counter s.
Proof.
  intros s Hreach.
  induction Hreach as [| s u_t flow volume pressure k Hreach [IHstart IHpc]].
  - cbn. split; [reflexivity | lia].
  - destruct (call_keeps_start_time u_t flow volume pressure k s IHpc)
      as [Hstart Hpc].
    split; [congruence | exact Hpc].
Qed.

(** C6, on the code: in every state the simulator can reach, the
    phase counter is at least one, so the entry test
    [phase_counter == 0] is false, and the phase start time is still
    the initial [0], also after one more call: no exhale phase
    latches its start time. *)
Theorem start_time_never_latched :
  forall s : SimulationState,
    reachable s ->
    Z.eqb (phase_counter s) 0 = false
    /\ start_phase_time s = of_Z 0
    /\ forall (u_t flow volume pressure : F) (k : kwargs),
         start_phase_time
           (fst (simulation_model u_t flow volume pressure k s)) = of_Z 0.
Proof.
  intros s Hreach.
  destruct (reachable_invariant Hreach) as [Hstart Hpc].
  split; [apply Z.eqb_neq; lia |].
  split; [exact Hstart |].
  intros u_t flow volume pressure k.
  destruct (call_keeps_start_time u_t flow volume pressure k s Hpc)
    as [Hkeep _].
  congruence.
Qed.

(** Rewrites with every outcome recorded by [split_divisions]. *)
Ltac replay_divisions :=
  repeat match goal with
         | Hd : div _ _ = _ |- _ => rewrite Hd; clear Hd
         | Hb : geb _ _ = _ |- _ => rewrite Hb; clear Hb
         | Hb : Z.eqb _ _ = _ |- _ => rewrite Hb; clear Hb
         | Hb : Z.ltb _ _ = _ |- _ => rewrite Hb; clear Hb
         end.

(** C9. On every tick that returns, the observation is the triple
    (flow, volume, pressure) of the three locals the phase equations
    leave, with only the flow converted, as [flow * 60 / 1000], after
    those equations: the volume and the pressure of the observation
    are the ones computed from the flow before conversion
    ([pressure = flow * r_aw + volume / c_rs + PEEP] on the converted
    resistance [_r_aw]). *)
Theorem observation_boundary :
  forall (u_t flow volume pressure : F) (k : kwargs)
         (s s' : SimulationState) (obs : observation),
    simulation_model u_t flow volume pressure k s = (s', Returned obs) ->
    exists lung ventilator s1 f v p,
      Lung.init (r_aw k) (c_rs k) = Returned lung
      /\ Ventilator.init (v_t k) (peep k) (rr k) (t_i k) (t_ip k)
           = Returned ventilator
      /\ phase_equations lung ventilator k volume pressure s
           = (s1, Returned (f, v, p))
      /\ match phase s with
         | exhale =>
             _expiratory_flow lung ventilator pressure
               (start_phase_time s1) (of_Z (i s) * dt k)%num = Returned f
             /\ v = (volume + f * dt k)%num
         | inhale =>
             f = Ventilator._f_i ventilator
             /\ v = (if Z.ltb 0 (i s) then (volume + f * dt k)%num
                     else of_Z 0)
         | pause =>
             f = of_Z 0 /\ v = (volume + f * dt k)%num
         end
      /\ (exists q,
            div v (Lung.c_rs lung) = Some q
            /\ p = (match phase s with
                    | pause => Lung._r_aw lung * f
                    | _ => f * Lung._r_aw lung
                    end + q + Ventilator.peep ventilator)%num)
      /\ div (f * of_Z 60)%num (of_Z 1000) = Some (x1 obs)
      /\ x2 obs = v
      /\ x3 obs = p.
Proof.
  intros u_t flow volume pressure k s s' obs.
  unfold_call.
  destruct (div (r_aw k) (of_Z 1000)) as [conv |] eqn:Hconv;
    [| discriminate].
  destruct (Ventilator.init (v_t k) (peep k) (rr k) (t_i k) (t_ip k))
    as [ventilator | e |] eqn:Hvent; [| discriminate | discriminate].
  destruct s as [n pc ph start]; destruct ph; cbn;
    split_divisions; try discriminate;
    intro Hcall; inversion Hcall; subst; clear Hcall;
    exists (Lung.mk (r_aw k) conv (c_rs k)), ventilator;
    do 4 eexists; cbn;
    (split; [reflexivity |]);
    (split; [reflexivity |]);
    (split; [replay_divisions; cbn; replay_divisions; reflexivity |]).
  all: cbn; repeat split; try reflexivity; try assumption.
  all: try (eexists; split; [eassumption | reflexivity]).
  all: replay_divisions; reflexivity.
Qed.

(** What C6 costs: on a reachable state in the exhale phase, a tick
    that returns reports the flow [_expiratory_flow] gives for the
    start time [0], so the decay is timed from the first tick of the
    episode, whenever the phase was entered. *)
Lemma exhale_flow_timed_from_zero :
  forall (u_t flow volume pressure : F) (k : kwargs)
         (s s' : SimulationState) (obs : observation),
    reachable s ->
    phase s = exhale ->
    simulation_model u_t flow volume pressure k s = (s', Returned obs) ->
    exists lung ventilator f,
      Lung.init (r_aw k) (c_rs k) = Returned lung
      /\ Ventilator.init (v_t k) (peep k) (rr k) (t_i k) (t_ip k)
           = Returned ventilator
      /\ _expiratory_flow lung ventilator pressure
           (of_Z 0) (of_Z (i s) * dt k)%num = Returned f
      /\ div (f * of_Z 60)%num (of_Z 1000) = Some (x1 obs).
Proof.
  intros u_t flow volume pressure k s s' obs Hreach Hphase.
  destruct (reachable_invariant Hreach) as [Hstart Hpc].
  assert (Hz : Z.eqb (phase_counter s) 0 = false)
    by (apply Z.eqb_neq; lia).
  destruct s as [n pc ph start]. cbn in Hphase, Hstart, Hz. subst ph start.
  unfold_call.
  destruct (div (r_aw k) (of_Z 1000)) as [conv |] eqn:Hconv;
    [| discriminate].
  destruct (Ventilator.init (v_t k) (peep k) (rr k) (t_i k) (t_ip k))
    as [ventilator | e |] eqn:Hvent; [| discriminate | discriminate].
  cbn. rewrite Hz. cbn.
  split_divisions; try discriminate;
    intro Hcall; inversion Hcall; subst; clear Hcall;
    exists (Lung.mk (r_aw k) conv (c_rs k)), ventilator;
    eexists; cbn;
    (split; [reflexivity |]);
    (split; [reflexivity |]);
    (split; [replay_divisions; reflexivity | assumption]).
Qed.

End SimulatorFacts.

Section SimulatorOnQ.
Local Open Scope Q_scope.
Import CpapEnv.

Lemma Qred_nonzero : forall x : Q, ~ x == 0 -> ~ Qred x == 0.
Proof. intros x Hx. rewrite Qred_correct. exact Hx. Qed.

Lemma Qquot_nonzero :
  forall a b : Q, ~ a == 0 -> ~ b == 0 -> ~ Qred (a / b) == 0.
Proof.
  intros a b Ha Hb. apply Qred_nonzero. intro Hz. apply Ha.
  setoid_replace a with (a / b * b) by (field; exact Hb).
  rewrite Hz. ring.
Qed.

Lemma Qprod_nonzero :
  forall a b : Q, ~ a == 0 -> ~ b == 0 -> ~ (a * b)%num == 0.
Proof.
  intros a b Ha Hb. rewrite Qmul_num. intro Hz.
  apply Qmult_integral in Hz. tauto.
Qed.

(** [Lung] and [Ventilator] are built whenever the divisors are not
    zero. *)
Lemma Lung_init_returns :
  forall r c0 : Q,
    Lung.init r c0 = Returned (Lung.mk r (Qred (r / 1000)) c0).
Proof.
  intros r c0. unfold Lung.init.
  rewrite div_or_raise_Q by (intro Hz; discriminate Hz).
  reflexivity.
Qed.

Lemma Ventilator_init_returns :
  forall v p r ti tip : Q,
    ~ r == 0 -> ~ ti == 0 ->
    Ventilator.init v p r ti tip =
    Returned (Ventilator.mk v p r (Qred (r / 60)) ti tip
                (Qred (1 / Qred (r / 60)))
                (Qred (1 / Qred (r / 60)) - ti - tip)%num
                (Qred (v / ti))).
Proof.
  intros v p r ti tip Hr Hti. unfold Ventilator.init.
  assert (H60 : ~ 60 == 0) by (intro Hz; discriminate Hz).
  rewrite div_or_raise_Q by exact H60. cbn [result_bind].
  rewrite div_or_raise_Q by (apply Qquot_nonzero; assumption).
  cbn [result_bind].
  rewrite div_or_raise_Q by exact Hti.
  reflexivity.
Qed.

(** With exact arithmetic every tick returns, in every phase and on
    every state, as soon as the airway resistance, the compliance,
    the respiratory rate and the inspiratory time are not zero. *)
Lemma simulation_model_returns :
  forall (u_t flow volume pressure : Q) (k : kwargs)
         (s : SimulationState),
    ~ r_aw k == 0 -> ~ c_rs k == 0 -> ~ rr k == 0 -> ~ t_i k == 0 ->
    exists s' obs,
      simulation_model u_t flow volume pressure k s = (s', Returned obs).
Proof.
  intros u_t flow volume pressure k s Hr Hc Hrr Hti.
  assert (H1000 : ~ 1000 == 0) by (intro Hz; discriminate Hz).
  assert (Hconv : ~ Qred (r_aw k / 1000) == 0)
    by (apply Qquot_nonzero; assumption).
  unfold simulation_model, bind, lift.
  rewrite Lung_init_returns.
  rewrite (Ventilator_init_returns (v_t k) (peep k) (t_ip k) Hrr Hti).
  unfold phase_equations.
  destruct s as [n pc ph start]; destruct ph; cbn [phase].
  - unfold exhale_branch, _expiratory_flow, bind, lift, gets, modify, ret.
    cbn [Lung._r_aw Lung.c_rs Ventilator.peep Ventilator.t_e i
         phase_counter start_phase_time].
    destruct (Z.eqb pc 0);
      cbn [start_phase_time set_start_phase_time i phase_counter phase];
      rewrite (div_or_raise_Q _ Hconv); cbn [result_bind];
      rewrite div_or_raise_Q by (apply Qprod_nonzero; assumption);
      cbn [result_bind];
      rewrite (div_or_raise_Q _ Hc);
      rewrite count_phase_spec;
      rewrite (div_or_raise_Q _ H1000);
      eexists; eexists; reflexivity.
  - unfold inhale_branch, bind, lift, gets, modify, ret.
    cbn [Lung._r_aw Lung.c_rs i].
    rewrite (div_or_raise_Q _ Hc).
    rewrite count_phase_spec.
    rewrite (div_or_raise_Q _ H1000).
    eexists; eexists; reflexivity.
  - unfold pause_branch, bind, lift, gets, modify, ret.
    cbn [Lung._r_aw Lung.c_rs i].
    rewrite (div_or_raise_Q _ Hc).
    rewrite count_phase_spec.
    rewrite (div_or_raise_Q _ H1000).
    eexists; eexists; reflexivity.
Qed.

End SimulatorOnQ.

Section SimulatorExamples.
Local Open Scope Q_scope.
Import CpapEnv.

Lemma ticks_reachable :
  forall (n : nat) (k : kwargs) (s : SimulationState),
    reachable s -> reachable (Inputs.ticks n k s).
Proof.
  induction n as [| n IH]; intros k s Hreach; cbn [Inputs.ticks].
  - exact Hreach.
  - apply IH. apply reachable_call. exact Hreach.
Qed.

(** The cadence with the parameters of [create_cpap_environment]
    (30 Hz, exhale 2.75 s, inhale 1 s, pause 0.25 s): the first exhale
    ends when the counter is 83, after 82 calls; inhale takes 29
    calls and pause 7; the second exhale starts at tick 118 and ends
    82 calls later. *)
Lemma default_cadence :
  Inputs.ticks 81 Inputs.ensemble_params initial_state
    = mkState 81 82 exhale 0
  /\ Inputs.ticks 82 Inputs.ensemble_params initial_state
       = mkState 82 1 inhale 0
  /\ Inputs.ticks 111 Inputs.ensemble_params initial_state
       = mkState 111 1 pause 0
  /\ Inputs.ticks 118 Inputs.ensemble_params initial_state
       = mkState 118 1 exhale 0
  /\ Inputs.ticks 200 Inputs.ensemble_params initial_state
       = mkState 200 1 inhale 0.
Proof. repeat split; vm_compute; reflexivity. Qed.

(** C6 at the entry of the second exhale phase (tick 118, time
    118/30 s): the start time is still 0 and stays 0 over the call. *)
Lemma start_time_never_latched_witness :
  Inputs.ticks 118 Inputs.ensemble_params initial_state
    = mkState 118 1 exhale 0
  /\ Z.eqb 1 0 = false
  /\ start_phase_time (mkState (F := Q) 118 1 exhale 0) = 0
  /\ forall (u_t flow volume pressure : Q) (k : kwargs),
       start_phase_time
         (fst (simulation_model u_t flow volume pressure k
                 (mkState 118 1 exhale 0))) = 0.
Proof.
  assert (Hstate : Inputs.ticks 118 Inputs.ensemble_params initial_state
                   = mkState 118 1 exhale 0)
    by (vm_compute; reflexivity).
  assert (Hreach : reachable (mkState (F := Q) 118 1 exhale 0)).
  { rewrite <- Hstate. apply ticks_reachable. apply reachable_initial. }
  split; [exact Hstate |].
  exact (@start_time_never_latched Q _ (mkState 118 1 exhale 0) Hreach).
Defined.

(** C9 on an inhale tick with volume 100 and pressure 7: the
    inspiratory flow is 350, the observation reports
    [350 * 60 / 1000 = 21], and volume and pressure are taken with
    the flow 350. *)
Lemma observation_boundary_witness :
  exists lung ventilator s1 f v p,
    Lung.init (r_aw Inputs.ensemble_params) (c_rs Inputs.ensemble_params)
      = Returned lung
    /\ Ventilator.init (v_t Inputs.ensemble_params)
         (peep Inputs.ensemble_params) (rr Inputs.ensemble_params)
         (t_i Inputs.ensemble_params) (t_ip Inputs.ensemble_params)
       = Returned ventilator
    /\ phase_equations lung ventilator Inputs.ensemble_params 100 7
         Inputs.inhaling
       = (s1, Returned (f, v, p))
    /\ (f = Ventilator._f_i ventilator
        /\ v = (if Z.ltb 0 82
                then (100 + f * dt Inputs.ensemble_params)%num
                else of_Z 0))
    /\ (exists q,
          div v (Lung.c_rs lung) = Some q
          /\ p = (f * Lung._r_aw lung + q + Ventilator.peep ventilator)%num)
    /\ div (f * of_Z 60)%num (of_Z 1000) = Some 21
    /\ 335 # 3 = v
    /\ 356 # 45 = p.
Proof.
  apply (@observation_boundary Q _ 0 0 100 7 Inputs.ensemble_params
           Inputs.inhaling (mkState 83 2 inhale 0)
           (mkObs 21 (335 # 3) (356 # 45))).
  vm_compute. reflexivity.
Defined.

End SimulatorExamples.

(** ** The ventilator parameters *)

Section VentilatorFacts.
Local Open Scope Q_scope.

(** C7 fails on the code: rate 30, inspiratory time 2 and pause 0.25
    give the cycle time 2 and the expiratory time -0.25, and the
    constructor returns the object all the same. *)
Lemma nonpositive_expiratory_time_accepted :
  Ventilator.init 350 5 30 2 0.25 =
    Returned (Ventilator.mk 350 5 30 (1 # 2) 2 0.25 2 (- (1 # 4)) 175)
  /\ - (1 # 4) <= 0.
Proof.
  split.
  - vm_compute. reflexivity.
  - discriminate.
Qed.

(** The only exception the constructor can raise is the one of a
    division, for every arithmetic. *)
Lemma Ventilator_init_raises :
  forall (F : Type) (HF : Num F) (v p r ti tip : F) (e : exn),
    Ventilator.init v p r ti tip = Raised e -> e = ZeroDivisionError.
Proof.
  intros F HF v p r ti tip e.
  unfold Ventilator.init, result_bind, div_or_raise.
  repeat match goal with
         | |- context [match div ?a ?b with _ => _ end] => destruct (div a b)
         end; intro Heq; inversion Heq; reflexivity.
Qed.

(** C7, as the code has it. With exact arithmetic, for every rate
    and inspiratory time other than zero the constructor returns,
    with cycle time [60 / rate], expiratory time
    [cycle time - inspiratory time - pause time] and inspiratory flow
    [tidal volume / inspiratory time]; the sign of the expiratory
    time is not looked at. *)
Theorem Ventilator_derived :
  forall v p r ti tip : Q,
    ~ r == 0 -> ~ ti == 0 ->
    exists vent,
      Ventilator.init v p r ti tip = Returned vent
      /\ Ventilator.t_c vent == 60 / r
      /\ Ventilator.t_e vent == Ventilator.t_c vent - ti - tip
      /\ Ventilator._f_i vent == v / ti.
Proof.
  intros v p r ti tip Hr Hti.
  eexists. split; [apply Ventilator_init_returns; assumption |].
  cbn [Ventilator.t_c Ventilator.t_e Ventilator._f_i].
  split; [| split].
  - rewrite !Qred_correct. field. exact Hr.
  - rewrite !Qsub_num. reflexivity.
  - apply Qred_correct.
Qed.

(** C7 as amended, at the parameters of the counterexample. *)
Lemma Ventilator_derived_witness :
  exists vent,
    Ventilator.init 350 5 30 2 0.25 = Returned vent
    /\ Ventilator.t_c vent == 60 / 30
    /\ Ventilator.t_e vent == Ventilator.t_c vent - 2 - 0.25
    /\ Ventilator._f_i vent == 350 / 2.
Proof.
  apply (Ventilator_derived 350 5 (r := 30) (ti := 2) 0.25).
  - intro Hz. discriminate Hz.
  - intro Hz. discriminate Hz.
Defined.

End VentilatorFacts.

(** * Further properties *)

(** ** Runs of the controller *)

Section ControllerRuns.
Context {F : Type} `{Num F}.
Local Open Scope num_scope.
Import PIDController.

(** The fields a call leaves, in each mode and outcome. *)
Lemma call_fields :
  forall (c : PIDController.t) (e : F),
    let acc := set_integral
                 (integral c + np_clip (e * dt c) (min c) (max c)) c in
    fst (call e c) =
      if use_derivative c
      then match div (e - previous_error c) (dt c) with
           | Some _ => set_previous_error e acc
           | None => acc
           end
      else set_previous_error e acc.
Proof.
  intros c e acc. subst acc.
  unfold call, formula, bind.
  destruct (use_derivative c) eqn:Hmode.
  - unfold _PID_formula, _PID_locals, accumulate, bind, modify, gets, lift,
      div_or_raise, ret.
    cbn. destruct (div (e - previous_error c) (dt c)); reflexivity.
  - reflexivity.
Qed.

(** The gains, the integrator bounds, the step [dt] and the mode are
    the same after any run of calls, whatever the errors and whether
    or not calls raised: a tick writes [integral] and
    [previous_error] only. *)
Lemma calls_keep_configuration :
  forall (errors : list F) (c : PIDController.t),
    let c' := after_calls errors c in
    Kp c' = Kp c /\ Ki c' = Ki c /\ Kd c' = Kd c
    /\ min c' = min c /\ max c' = max c /\ dt c' = dt c
    /\ use_derivative c' = use_derivative c.
Proof.
  induction errors as [| e rest IH]; intro c; cbn [after_calls].
  - repeat split; reflexivity.
  - specialize (IH (fst (call e c))). cbv zeta in IH.
    destruct IH as (HKp & HKi & HKd & Hmin & Hmax & Hdt & Hmode).
    rewrite HKp, HKi, HKd, Hmin, Hmax, Hdt, Hmode.
    rewrite call_fields.
    destruct c as [kp ki kd lo hi step prev acc mode].
    cbn [use_derivative previous_error dt min max integral].
    destruct mode; [destruct (div (e - prev) step) |];
      repeat split; reflexivity.
Qed.

End ControllerRuns.

Section ControllerRunsOnQ.
Local Open Scope Q_scope.
Import PIDController.

Lemma PI_call_output :
  forall (c : PIDController.t (F := Q)) (e : Q),
    use_derivative c = false ->
    snd (call e c) =
      Returned (PyNum (Kp c * e
                       + Ki c * (integral c
                                 + Qclip (e * dt c)%num (min c) (max c)))%num).
Proof.
  intros c e Hmode. unfold call, formula, bind. rewrite Hmode. reflexivity.
Qed.

Lemma Qclip_compat :
  forall x y lo hi : Q, x == y -> Qclip x lo hi == Qclip y lo hi.
Proof.
  intros x y lo hi Hxy. unfold Qclip.
  apply Q.min_compat; [| reflexivity].
  apply Q.max_compat; [exact Hxy | reflexivity].
Qed.

Lemma PI_call_integral :
  forall (c : PIDController.t (F := Q)) (e : Q),
    use_derivative c = false ->
    integral (fst (call e c)) ==
    integral c + Qclip (e * dt c) (min c) (max c).
Proof.
  intros c e Hmode. rewrite call_fields, Hmode.
  cbn [integral set_previous_error set_integral].
  rewrite Qadd_num.
  rewrite (Qclip_compat (min c) (max c) (Qmul_num e (dt c))).
  reflexivity.
Qed.

(** With exact arithmetic, a PI controller whose [Ki] is zero gives
    back [Kp * error] at every call, whatever errors it was called
    with before. *)
Theorem PI_proportional_when_Ki_zero :
  forall (errors : list Q) (c : PIDController.t (F := Q)) (e : Q),
    use_derivative c = false ->
    Ki c == 0 ->
    exists out,
      snd (call e (after_calls errors c)) = Returned (PyNum out)
      /\ out == Kp c * e.
Proof.
  intros errors c e Hmode HKi.
  destruct (calls_keep_configuration errors c)
    as (HKp & HKi' & _ & _ & _ & _ & Hmode').
  eexists. split.
  - apply PI_call_output. rewrite Hmode'. exact Hmode.
  - rewrite HKp, HKi'. rewrite Qadd_num, !Qmul_num, HKi. ring.
Qed.

(** With exact arithmetic and [min <= max], [n] PI calls move the
    integral by at least [n * min] and at most [n * max]: the sum is
    bounded by the number of calls, not by the bounds themselves. *)
Theorem PI_integral_drift_bounded :
  forall (errors : list Q) (c : PIDController.t (F := Q)),
    use_derivative c = false ->
    min c <= max c ->
    let n := inject_Z (Z.of_nat (List.length errors)) in
    n * min c <= integral (after_calls errors c) - integral c
    /\ integral (after_calls errors c) - integral c <= n * max c.
Proof.
  induction errors as [| e rest IH]; intros c Hmode Hle.
  - cbn. split; ring_simplify; apply Qle_refl.
  - cbn [after_calls List.length].
    destruct (calls_keep_configuration [e] c)
      as (_ & _ & _ & Hmin & Hmax & _ & Hmode').
    cbn [after_calls] in Hmin, Hmax, Hmode'.
    assert (Hmode1 : use_derivative (fst (call e c)) = false)
      by congruence.
    assert (Hle1 : min (fst (call e c)) <= max (fst (call e c)))
      by (rewrite Hmin, Hmax; exact Hle).
    specialize (IH (fst (call e c)) Hmode1 Hle1). cbv zeta in IH.
    rewrite Hmin, Hmax in IH.
    destruct IH as [IHlo IHhi].
    pose proof (PI_call_integral c e Hmode) as Hstep.
    destruct (Qclip_bounds (e * dt c) Hle) as [Hlo Hhi].
    cbv zeta. rewrite Nat2Z.inj_succ. unfold Z.succ.
    rewrite inject_Z_plus.
    set (n := inject_Z (Z.of_nat (List.length rest))) in *.
    change (inject_Z 1) with 1.
    split; lra.
Qed.

(** [np.clip] leaves a value inside the bounds as it is. *)
Lemma Qclip_inside :
  forall x lo hi : Q, lo <= x -> x <= hi -> Qclip x lo hi == x.
Proof.
  intros x lo hi Hlo Hhi. unfold Qclip.
  rewrite (Q.max_l x lo Hlo). apply Q.min_l. exact Hhi.
Qed.

Lemma errors_in_range_tail :
  forall (lo hi d e : Q) (rest : list Q),
    Forall (fun x => lo <= x * d /\ x * d <= hi) (e :: rest) ->
    (lo <= e * d /\ e * d <= hi)
    /\ Forall (fun x => lo <= x * d /\ x * d <= hi) rest.
Proof.
  intros lo hi d e rest Hall. inversion Hall; subst. split; assumption.
Qed.

(** With exact arithmetic, while every increment [e * dt] lies
    within the bounds, the clamp does nothing and the integral is the
    plain sum: after the run it is the old integral plus the sum of
    the errors times [dt]. *)
Theorem PI_integral_is_sum_inside_bounds :
  forall (errors : list Q) (c : PIDController.t (F := Q)),
    use_derivative c = false ->
    Forall (fun e => min c <= e * dt c /\ e * dt c <= max c) errors ->
    integral (after_calls errors c) ==
    integral c + fold_right Qplus 0 errors * dt c.
Proof.
  induction errors as [| e rest IH]; intros c Hmode Hall.
  - cbn. ring.
  - cbn [after_calls fold_right].
    destruct (errors_in_range_tail Hall) as [[Hlo Hhi] Hrest].
    destruct (calls_keep_configuration [e] c)
      as (_ & _ & _ & Hmin & Hmax & Hdt & Hmode').
    cbn [after_calls] in Hmin, Hmax, Hdt, Hmode'.
    assert (Hmode1 : use_derivative (fst (call e c)) = false)
      by congruence.
    rewrite (IH (fst (call e c)) Hmode1)
      by (rewrite Hmin, Hmax, Hdt; exact Hrest).
    rewrite Hdt, (PI_call_integral c e Hmode).
    rewrite (Qclip_inside Hlo Hhi). ring.
Qed.

(** With exact arithmetic and [dt = 0], a controller in derivative
    mode raises [ZeroDivisionError] at every call, however many calls
    came before, and its [previous_error] never changes. *)
Theorem PID_dt_zero_always_raises :
  forall (errors : list Q) (c : PIDController.t (F := Q)) (e : Q),
    use_derivative c = true ->
    dt c == 0 ->
    snd (call e (after_calls errors c)) = Raised ZeroDivisionError
    /\ previous_error (after_calls errors c) = previous_error c.
Proof.
  assert (Hdiv : forall (c : PIDController.t (F := Q)) (e : Q),
             dt c == 0 -> div (e - previous_error c)%num (dt c) = None).
  { intros c e Hdt. cbn [div Num_Q]. unfold Qdiv_opt.
    apply Qeq_bool_iff in Hdt. rewrite Hdt. reflexivity. }
  assert (Hone : forall (c : PIDController.t (F := Q)) (e : Q),
             use_derivative c = true -> dt c == 0 ->
             snd (call e c) = Raised ZeroDivisionError
             /\ previous_error (fst (call e c)) = previous_error c).
  { intros c e Hmode Hdt. split.
    - unfold call, formula, bind. rewrite Hmode.
      unfold _PID_formula, _PID_locals, accumulate, bind, modify, gets,
        lift, div_or_raise.
      cbn [fst snd previous_error dt set_integral].
      rewrite (Hdiv c e Hdt). reflexivity.
    - rewrite call_fields, Hmode, (Hdiv c e Hdt). reflexivity. }
  induction errors as [| e0 rest IH]; intros c e Hmode Hdt;
    cbn [after_calls].
  - split; [apply Hone; assumption | reflexivity].
  - destruct (calls_keep_configuration [e0] c)
      as (_ & _ & _ & _ & _ & Hdt' & Hmode').
    cbn [after_calls] in Hdt', Hmode'.
    destruct (Hone c e0 Hmode Hdt) as [_ Hprev].
    rewrite <- Hprev. apply IH.
    + congruence.
    + rewrite Hdt'. exact Hdt.
Qed.

End ControllerRunsOnQ.

Section ControllerRunExamples.
Local Open Scope Q_scope.
Import PIDController.

(** After the errors 10 and -3, a PI controller with [Kp = 2] and
    [Ki = 0] answers 14 to the error 7. *)
Lemma PI_proportional_when_Ki_zero_witness :
  exists out,
    snd (call 7 (after_calls [10; -3]
                   (PIDController.init 2 0 5 (-1, 1) 1 false)))
      = Returned (PyNum out)
    /\ out == 2 * 7.
Proof.
  apply (PI_proportional_when_Ki_zero [10; -3]
           (PIDController.init 2 0 5 (-1, 1) 1 false) 7).
  - reflexivity.
  - reflexivity.
Defined.

(** Three calls with error 10 and bounds [[-1, 1]]: the integral has
    moved by 3, within [[-3, 3]]. *)
Lemma PI_integral_drift_bounded_witness :
  inject_Z 3 * -1
    <= integral (after_calls [10; 10; 10] Inputs.pi_controller) - 0
  /\ integral (after_calls [10; 10; 10] Inputs.pi_controller) - 0
     <= inject_Z 3 * 1.
Proof.
  apply (PI_integral_drift_bounded [10; 10; 10] Inputs.pi_controller).
  - reflexivity.
  - unfold Qle. cbn. lia.
Defined.

(** Errors 1/2 and -1/4 with [dt = 1] stay inside [[-1, 1]]: the
    integral is their sum. *)
Lemma PI_integral_is_sum_inside_bounds_witness :
  integral (after_calls [1 # 2; - (1 # 4)] Inputs.pi_controller) ==
  0 + ((1 # 2) + (- (1 # 4) + 0)) * 1.
Proof.
  apply (@PI_integral_is_sum_inside_bounds [1 # 2; - (1 # 4)]
           Inputs.pi_controller).
  - reflexivity.
  - repeat constructor; unfold Qle; cbn; lia.
Defined.

(** The PID controller of [Inputs] with [dt = 0], after the errors 1
    and 2, called with 3. *)
Lemma PID_dt_zero_always_raises_witness :
  snd (call 3 (after_calls [1; 2] Inputs.pid_controller_dt0))
    = Raised ZeroDivisionError
  /\ previous_error (after_calls [1; 2] Inputs.pid_controller_dt0) = 0.
Proof.
  apply (PID_dt_zero_always_raises [1; 2] Inputs.pid_controller_dt0 3).
  - reflexivity.
  - reflexivity.
Defined.

End ControllerRunExamples.

(** ** The reaction-curve analysis *)

Section AnalysisFacts.
Context {F : Type} `{Num F}.
Local Open Scope num_scope.
Local Open Scope string_scope.
Import PIDController.

Variable Plant : Type.
Variable step_response : Plant -> list F * list F.
Variable step_info_peak : Plant -> F.
Variable np_gradient : list F -> list F -> list F.
Variable closed_loop_step_response : TransferFunction F -> Plant -> list F.
Variable minimize :
  (F * F * F -> F) -> F * F * F -> string -> result (F * F * F).

Local Abbreviation ZN :=
  (train_pid_with_ZN_method step_response step_info_peak np_gradient).
Local Abbreviation analyse :=
  (analyse step_response step_info_peak np_gradient).
Local Abbreviation sign_changes := (sign_changes step_response np_gradient).
Local Abbreviation train :=
  (train_pid_controller step_response step_info_peak np_gradient
     closed_loop_step_response minimize).

Lemma np_where_from_nil :
  forall (l : list F) (k : nat),
    Forall (fun d => truthy d = false) l -> np_where_from k l = [].
Proof.
  induction l as [| a tl IH]; intros k Hall; cbn [np_where_from].
  - reflexivity.
  - inversion Hall as [| a' tl' Ha Htl]; subst.
    rewrite Ha. apply IH. exact Htl.
Qed.

(** The first position [np.where] reports is the first true entry. *)
Lemma np_where_from_first :
  forall (l : list F) (k0 k : nat),
    nth_error (np_where_from k0 l) 0 = Some k ->
    exists j d,
      k = (k0 + j)%nat
      /\ nth_error l j = Some d
      /\ truthy d = true
      /\ forall j' d', (j' < j)%nat -> nth_error l j' = Some d' ->
                       truthy d' = false.
Proof.
  induction l as [| a tl IH]; intros k0 k Hk; cbn [np_where_from] in Hk.
  - discriminate.
  - destruct (truthy a) eqn:Ha.
    + cbn in Hk. injection Hk as <-.
      exists 0%nat, a.
      split; [lia |]. split; [reflexivity |]. split; [exact Ha |].
      intros j' d' Hlt. lia.
    + destruct (IH (S k0) k Hk) as (j & d & Hkj & Hnth & Hd & Hbefore).
      exists (S j), d.
      split; [lia |]. split; [exact Hnth |]. split; [exact Hd |].
      intros [| j'] d' Hlt Hnth'.
      * cbn in Hnth'. congruence.
      * cbn in Hnth'. apply (Hbefore j' d'); [lia | exact Hnth'].
Qed.

Lemma np_where_from_some :
  forall (l : list F) (k0 : nat) (d : F),
    In d l -> truthy d = true ->
    exists k, nth_error (np_where_from k0 l) 0 = Some k.
Proof.
  induction l as [| a tl IH]; intros k0 d Hin Hd; [contradiction |].
  cbn [np_where_from].
  destruct (truthy a) eqn:Ha.
  - exists k0. reflexivity.
  - destruct Hin as [-> | Hin]; [congruence |].
    apply (IH (S k0) d Hin Hd).
Qed.

Lemma np_diff_length :
  forall l : list F, List.length (np_diff l) = pred (List.length l).
Proof.
  induction l as [| a [| b tl] IH]; try reflexivity.
  change (np_diff (a :: b :: tl)) with ((b - a) :: np_diff (b :: tl)).
  cbn [List.length pred] in *. rewrite IH. reflexivity.
Qed.

(** The analysis up to the inflexion index. *)
Lemma analyse_unfold :
  forall plant : Plant,
    analyse plant =
    let time := fst (step_response plant) in
    let plant_y := snd (step_response plant) in
    let dy_dt := np_gradient plant_y time in
    result_bind (index (np_where (sign_changes plant)) 0)
      (fun inflexion_idx =>
    result_bind (index time inflexion_idx) (fun t_inflexion =>
    result_bind (index plant_y inflexion_idx) (fun y_inflexion =>
    result_bind (index dy_dt inflexion_idx) (fun slope =>
    result_bind (div_or_raise y_inflexion slope) (fun q0 =>
    let t_intersect_y0 := t_inflexion - q0 in
    let h := step_info_peak plant in
    result_bind (div_or_raise (h - y_inflexion) slope) (fun qh =>
    let t_intersect_yh := t_inflexion + qh in
    Returned (mkCurve t_inflexion y_inflexion slope h
                t_intersect_y0 (t_intersect_yh - t_intersect_y0)))))))).
Proof.
  intro plant. unfold PIDController.analyse, PIDController.sign_changes.
  destruct (step_response plant) as [time plant_y]. reflexivity.
Qed.

(** A step response whose second derivative never changes sign has
    no inflexion: the tuner raises [IndexError] for every family,
    known or not, and with or without the plot; so does the entry
    point on its ZN branch. Nothing is drawn and the process does not
    exit. *)
Theorem no_inflexion_raises :
  forall (plant : Plant) (pid_type : string) (plot : bool) (kp ki kd : F),
    Forall (fun d => truthy d = false) (sign_changes plant) ->
    ZN plant pid_type plot = Raised IndexError
    /\ train plant "ZN" pid_type kp ki kd = Raised IndexError.
Proof.
  intros plant pid_type plot kp ki kd Hflat.
  assert (Hanalyse : analyse plant = Raised IndexError).
  { rewrite analyse_unfold. cbv zeta. unfold np_where.
    rewrite (np_where_from_nil 0 Hflat). reflexivity. }
  assert (HZN : forall b, ZN plant pid_type b = Raised IndexError).
  { intro b. unfold train_pid_with_ZN_method. rewrite Hanalyse.
    reflexivity. }
  split; [apply HZN |].
  unfold train_pid_controller.
  change (String.eqb "ZN" "ZN") with true. cbv iota.
  rewrite HZN. reflexivity.
Qed.

(** When the analysis returns, the inflexion it reports is at the
    first index where the sign of the second derivative changes:
    the time, the output and the slope are the entries of [time],
    [plant_y] and [dy_dt] at that index, and [h] is the peak. *)
Theorem inflexion_is_first_sign_change :
  forall (plant : Plant) (rc : reaction_curve),
    analyse plant = Returned rc ->
    exists k d,
      nth_error (sign_changes plant) k = Some d
      /\ truthy d = true
      /\ (forall j d', (j < k)%nat ->
            nth_error (sign_changes plant) j = Some d' ->
            truthy d' = false)
      /\ nth_error (fst (step_response plant)) k = Some (t_inflexion rc)
      /\ nth_error (snd (step_response plant)) k = Some (y_inflexion rc)
      /\ nth_error (np_gradient (snd (step_response plant))
                      (fst (step_response plant))) k = Some (slope rc)
      /\ h rc = step_info_peak plant.
Proof.
  intros plant rc. rewrite analyse_unfold. cbv zeta.
  unfold index, np_where.
  destruct (nth_error (np_where_from 0 (sign_changes plant)) 0)
    as [k |] eqn:Hk; [| discriminate].
  destruct (np_where_from_first _ _ Hk) as (j & d & Hkj & Hnth & Hd & Hbefore).
  cbn in Hkj. subst j.
  cbn [result_bind].
  destruct (nth_error (fst (step_response plant)) k) as [t0 |] eqn:Ht;
    [| discriminate].
  cbn [result_bind].
  destruct (nth_error (snd (step_response plant)) k) as [y0 |] eqn:Hy;
    [| discriminate].
  cbn [result_bind].
  destruct (nth_error
              (np_gradient (snd (step_response plant))
                 (fst (step_response plant))) k) as [sl |] eqn:Hs;
    [| discriminate].
  cbn [result_bind]. unfold div_or_raise.
  destruct (div y0 sl); [| discriminate]. cbn [result_bind].
  destruct (div (step_info_peak plant - y0) sl); [| discriminate].
  cbn [result_bind].
  intro Hrc. injection Hrc as <-.
  exists k, d. cbn [t_inflexion y_inflexion slope h].
  repeat split; assumption || reflexivity.
Qed.

(** When the step response has as many times as outputs and the two
    calls of [np.gradient] keep that length, a response with a sign
    change never makes the analysis raise [IndexError]: every index
    it takes is in range, so it returns, or the slope at the
    inflexion cannot be divided by. *)
Theorem analysis_indices_in_range :
  forall (plant : Plant) (d : F),
    let time := fst (step_response plant) in
    let plant_y := snd (step_response plant) in
    List.length time = List.length plant_y ->
    List.length (np_gradient plant_y time) = List.length plant_y ->
    List.length (np_gradient (np_gradient plant_y time) time)
      = List.length plant_y ->
    In d (sign_changes plant) ->
    truthy d = true ->
    (exists rc, analyse plant = Returned rc)
    \/ analyse plant = Raised ZeroDivisionError.
Proof.
  intros plant d time plant_y Hlen Hgrad1 Hgrad2 Hin Hd.
  rewrite analyse_unfold. cbv zeta. unfold index, np_where.
  destruct (@np_where_from_some (sign_changes plant) 0%nat d Hin Hd)
    as [k Hk].
  rewrite Hk. cbn [result_bind].
  destruct (np_where_from_first _ _ Hk) as (j & d0 & Hkj & Hnth & _ & _).
  cbn in Hkj. subst j.
  assert (Hk_lt : (k < List.length plant_y)%nat).
  { assert (Hlt : (k < List.length (sign_changes plant))%nat)
      by (apply nth_error_Some; congruence).
    unfold PIDController.sign_changes in Hlt.
    subst time plant_y.
    destruct (step_response plant) as [time plant_y].
    cbn [fst snd] in *.
    rewrite np_diff_length, length_map, Hgrad2 in Hlt. lia. }
  fold time plant_y.
  destruct (nth_error time k) as [t0 |] eqn:Ht.
  2: { apply nth_error_None in Ht. lia. }
  cbn [result_bind].
  destruct (nth_error plant_y k) as [y0 |] eqn:Hy.
  2: { apply nth_error_None in Hy. lia. }
  cbn [result_bind].
  destruct (nth_error (np_gradient plant_y time) k) as [sl |] eqn:Hs.
  2: { apply nth_error_None in Hs. lia. }
  cbn [result_bind]. unfold div_or_raise.
  destruct (div y0 sl); [| right; reflexivity]. cbn [result_bind].
  destruct (div _ sl); [| right; reflexivity]. cbn [result_bind].
  left. eexists. reflexivity.
Qed.

(** The entry point on its search branch hands back, as the
    controller, the transfer function with numerator [[Kd, Kp, Ki]]
    of the gains the search returned; the objective scores a triple
    with the numerator [[Kp, Ki, Kd]]. So the controller returned is
    the one the objective scores at the rotated triple
    [(Kd, Kp, Ki)], not at the triple the search returned. *)
Theorem returned_controller_is_scored_rotated :
  forall (plant : Plant) (method pid_type : string)
         (kp ki kd gp gi gd : F),
    method <> "ZN" ->
    minimize (optimize_pid closed_loop_step_response plant)
      (kp, ki, kd) method = Returned (gp, gi, gd) ->
    exists tr,
      train plant method pid_type kp ki kd = Returned tr
      /\ tf_num (optimized_pid tr) = [gd; gp; gi]
      /\ (optimized_Kp tr, optimized_Ki tr, optimized_Kd tr) = (gp, gi, gd)
      /\ optimize_pid closed_loop_step_response plant (gd, gp, gi) =
           np_sum (map np_abs
             (map (fun yk => of_Z 1 - yk)
                (closed_loop_step_response (optimized_pid tr) plant))).
Proof.
  intros plant method pid_type kp ki kd gp gi gd Hm Hmin.
  unfold train_pid_controller.
  apply String.eqb_neq in Hm. rewrite Hm, Hmin. cbn [result_bind].
  eexists. split; [reflexivity |].
  cbn [optimized_pid tf_num optimized_Kp optimized_Ki optimized_Kd].
  repeat split.
Qed.

End AnalysisFacts.

Section TangentOnQ.
Local Open Scope Q_scope.
Import PIDController.

Variable Plant : Type.
Variable step_response : Plant -> list Q * list Q.
Variable step_info_peak : Plant -> Q.
Variable np_gradient : list Q -> list Q -> list Q.

Local Abbreviation analyse :=
  (analyse step_response step_info_peak np_gradient).

(** Exposes the rational operations under the instance. *)
Ltac to_Q :=
  cbv [add sub mul neg lit of_Z Num_Q] in *; rewrite ?Qred_correct in *.

(** What a returned analysis holds, with exact arithmetic. *)
Lemma analyse_returned_Q :
  forall (plant : Plant) (rc : reaction_curve),
    analyse plant = Returned rc ->
    ~ slope rc == 0
    /\ L rc == t_inflexion rc - y_inflexion rc / slope rc
    /\ T rc == h rc / slope rc.
Proof.
  intros plant rc. rewrite analyse_unfold. cbv zeta.
  destruct (index _ 0) as [k | |]; try discriminate. cbn [result_bind].
  destruct (index _ k) as [t0 | |]; try discriminate. cbn [result_bind].
  destruct (index _ k) as [y0 | |]; try discriminate. cbn [result_bind].
  destruct (index _ k) as [sl | |]; try discriminate. cbn [result_bind].
  unfold div_or_raise.
  destruct (div y0 sl) as [q0 |] eqn:Hq0; [| discriminate].
  cbn [result_bind].
  destruct (div (step_info_peak plant - y0)%num sl) as [qh |] eqn:Hqh;
    [| discriminate].
  cbn [result_bind].
  match goal with
  | |- Returned ?x = Returned _ -> _ =>
      intro Hrc; assert (Heq : rc = x) by congruence; subst rc; clear Hrc
  end.
  cbn [slope L T h t_inflexion y_inflexion].
  destruct (Qdiv_num _ _ Hq0) as [Hsl Hq0'].
  destruct (Qdiv_num _ _ Hqh) as [_ Hqh'].
  split; [exact Hsl |].
  to_Q. rewrite Hq0', Hqh'. to_Q.
  split; [reflexivity |]. field. exact Hsl.
Qed.

(** With exact arithmetic, the tangent drawn by the plot block is the
    line through the two marks the gains come from: it is [0] at
    [t = L] and reaches the peak [h] at [t = L + T]; and the time
    constant is the peak over the slope at the inflexion,
    [T = h / slope]. *)
Theorem tangent_meets_marks :
  forall (plant : Plant) (rc : reaction_curve),
    analyse plant = Returned rc ->
    tangente rc (L rc) == 0
    /\ tangente rc (L rc + T rc) == h rc
    /\ T rc == h rc / slope rc.
Proof.
  intros plant rc Hrc.
  destruct (analyse_returned_Q plant Hrc) as (Hsl & HL & HT).
  unfold tangente. to_Q. rewrite HL, HT.
  repeat split; try reflexivity; field; exact Hsl.
Qed.

End TangentOnQ.

Section AnalysisExamples.
Local Open Scope Q_scope.
Local Open Scope string_scope.
Import PIDController.

(** The flat response of [Inputs] has no sign change: [IndexError],
    here with an unknown family and the plot on. *)
Lemma no_inflexion_raises_witness :
  Inputs.ZN Inputs.flat_plant "XYZ" true = Raised IndexError
  /\ Inputs.train Inputs.flat_plant "ZN" "XYZ" 0 0 0 = Raised IndexError.
Proof.
  apply (@no_inflexion_raises Q _ _ Inputs.step_response
           Inputs.step_info_peak Inputs.np_gradient
           Inputs.closed_loop_step_response Inputs.minimize
           Inputs.flat_plant "XYZ" true 0 0 0).
  vm_compute. repeat constructor.
Defined.

(** On the sampled plant the inflexion is at index 2, the first
    sign change. *)
Lemma inflexion_is_first_sign_change_witness :
  exists k d,
    nth_error (sign_changes Inputs.step_response Inputs.np_gradient
                 Inputs.plant) k = Some d
    /\ truthy d = true
    /\ (forall j d', (j < k)%nat ->
          nth_error (sign_changes Inputs.step_response Inputs.np_gradient
                       Inputs.plant) j = Some d' ->
          truthy d' = false)
    /\ nth_error (Inputs.sample_time Inputs.plant) k = Some 2
    /\ nth_error (Inputs.sample_y Inputs.plant) k = Some 1
    /\ nth_error (Inputs.np_gradient (Inputs.sample_y Inputs.plant)
                    (Inputs.sample_time Inputs.plant)) k = Some 1
    /\ 4 = Inputs.step_info_peak Inputs.plant.
Proof.
  exact (@inflexion_is_first_sign_change Q _ _ Inputs.step_response
           Inputs.step_info_peak Inputs.np_gradient Inputs.plant
           (mkCurve 2 1 1 4 1 4) analyse_plant).
Defined.

(** On the sampled plant every index of the analysis is in range. *)
Lemma analysis_indices_in_range_witness :
  (exists rc,
      PIDController.analyse Inputs.step_response Inputs.step_info_peak
        Inputs.np_gradient Inputs.plant = Returned rc)
  \/ PIDController.analyse Inputs.step_response Inputs.step_info_peak
       Inputs.np_gradient Inputs.plant = Raised ZeroDivisionError.
Proof.
  apply (@analysis_indices_in_range Q _ _ Inputs.step_response
           Inputs.step_info_peak Inputs.np_gradient Inputs.plant (- (2))).
  - reflexivity.
  - reflexivity.
  - reflexivity.
  - vm_compute. right. right. left. reflexivity.
  - reflexivity.
Defined.

(** The search of [Inputs] stops at its start (1, 2, 3): the
    controller returned has the numerator [[3, 1, 2]]. *)
Lemma returned_controller_is_scored_rotated_witness :
  exists tr,
    Inputs.train Inputs.plant "BFGS" "PID" 1 2 3 = Returned tr
    /\ tf_num (optimized_pid tr) = [3; 1; 2]
    /\ (optimized_Kp tr, optimized_Ki tr, optimized_Kd tr) = (1, 2, 3)
    /\ optimize_pid Inputs.closed_loop_step_response Inputs.plant (3, 1, 2) =
         np_sum (map np_abs
           (map (fun yk => (of_Z 1 - yk)%num)
              (Inputs.closed_loop_step_response (optimized_pid tr)
                 Inputs.plant))).
Proof.
  apply (@returned_controller_is_scored_rotated Q _ _ Inputs.step_response
           Inputs.step_info_peak Inputs.np_gradient
           Inputs.closed_loop_step_response Inputs.minimize
           Inputs.plant "BFGS" "PID" 1 2 3 1 2 3).
  - discriminate.
  - reflexivity.
Defined.

(** On the sampled plant ([L = 1], [T = 4], slope 1, peak 4) the
    tangent is 0 at [t = 1] and 4 at [t = 5]. *)
Lemma tangent_meets_marks_witness :
  tangente (mkCurve 2 1 1 4 1 4) 1 == 0
  /\ tangente (mkCurve 2 1 1 4 1 4) (1 + 4)%num == 4
  /\ 4 == 4 / 1.
Proof.
  exact (@tangent_meets_marks _ Inputs.step_response Inputs.step_info_peak
           Inputs.np_gradient Inputs.plant (mkCurve 2 1 1 4 1 4)
           analyse_plant).
Defined.

End AnalysisExamples.

(** ** Runs of the simulator *)

Section SimulatorRuns.
Context {F : Type} `{Num F}.
Local Open Scope num_scope.
Local Open Scope Z_scope.
Import CpapEnv.

Lemma step_same_read_inputs :
  forall (a b : call_args) (s : SimulationState),
    same_read_inputs a b -> step a s = step b s.
Proof.
  intros [ua fa va pa ka] [ub fb vb pb kb] s.
  destruct ka, kb. unfold same_read_inputs. cbn.
  intros (Hv & Hp & Hr & Hc & Hvt & Hpe & Hrr & Hti & Htip & Hdt & Hfs).
  subst. reflexivity.
Qed.

(** The plant ignores the controller: two runs whose calls agree on
    the volume, the pressure and the lung, ventilator and sampling
    keywords leave the same fields and give back the same
    observations and exceptions, whatever the actions [u_t], the flow
    arguments and the patient and blower keywords of either run. *)
Theorem action_has_no_effect :
  forall (calls calls' : list call_args) (s : SimulationState),
    Forall2 same_read_inputs calls calls' ->
    run calls s = run calls' s /\ trace calls s = trace calls' s.
Proof.
  intros calls calls' s Hsame. revert s.
  induction Hsame as [| a b rest rest' Hab Hrest IH]; intro s.
  - split; reflexivity.
  - cbn [run trace]. rewrite (step_same_read_inputs s Hab).
    destruct (IH (fst (step b s))) as [Hrun Htrace].
    split; [exact Hrun | rewrite Htrace; reflexivity].
Qed.

End SimulatorRuns.

Section SimulatorRunsOnQ.
Local Open Scope Q_scope.
Import CpapEnv.

Lemma Qdiv_by_zero : forall a b : Q, b == 0 -> div a b = None.
Proof.
  intros a b Hb. cbn [div Num_Q]. unfold Qdiv_opt.
  apply Qeq_bool_iff in Hb. rewrite Hb. reflexivity.
Qed.

Lemma div_or_raise_zero :
  forall a b : Q, b == 0 -> div_or_raise a b = Raised ZeroDivisionError.
Proof.
  intros a b Hb. unfold div_or_raise. rewrite (Qdiv_by_zero a Hb).
  reflexivity.
Qed.

Lemma Ventilator_init_fails :
  forall v p r ti tip : Q,
    r == 0 \/ ti == 0 ->
    Ventilator.init v p r ti tip = Raised ZeroDivisionError.
Proof.
  intros v p r ti tip Hzero. unfold Ventilator.init.
  assert (H60 : ~ 60 == 0) by (intro Hz; discriminate Hz).
  rewrite div_or_raise_Q by exact H60. cbn [result_bind].
  destruct (Qeq_dec r 0) as [Hr | Hr].
  - rewrite div_or_raise_zero; [reflexivity |].
    rewrite Qred_correct, Hr. reflexivity.
  - rewrite div_or_raise_Q by (apply Qquot_nonzero; assumption).
    cbn [result_bind].
    destruct Hzero as [Hr0 | Hti]; [contradiction |].
    rewrite (div_or_raise_zero _ Hti). reflexivity.
Qed.

(** A call whose divisors are not zero returns and leaves the fields
    [advance] gives. *)
Lemma tick_returns_Q :
  forall (a : call_args) (s : SimulationState),
    (phase s = exhale -> phase_counter s <> 0%Z) ->
    ~ rr (arg_kwargs a) == 0 ->
    ~ t_i (arg_kwargs a) == 0 ->
    ~ c_rs (arg_kwargs a) == 0 ->
    (phase s = exhale -> ~ r_aw (arg_kwargs a) == 0) ->
    exists ventilator obs,
      Ventilator.init (v_t (arg_kwargs a)) (peep (arg_kwargs a))
        (rr (arg_kwargs a)) (t_i (arg_kwargs a)) (t_ip (arg_kwargs a))
        = Returned ventilator
      /\ step a s = (advance ventilator (f_s (arg_kwargs a)) s, Returned obs).
Proof.
  intros [u_t flow volume pressure k] s Hpc Hrr Hti Hc Hr.
  cbn [arg_kwargs] in *.
  assert (H1000 : ~ 1000 == 0) by (intro Hz; discriminate Hz).
  pose proof (Ventilator_init_returns (v_t k) (peep k) (t_ip k) Hrr Hti)
    as Hvent.
  destruct s as [n pc ph start]; destruct ph;
    (eexists; eexists; split; [exact Hvent |]);
    unfold step, simulation_model, bind, lift;
    cbn [arg_u_t arg_flow arg_volume arg_pressure arg_kwargs];
    rewrite Lung_init_returns, Hvent;
    unfold phase_equations, advance;
    cbn [phase phase_counter i start_phase_time phase_duration next_phase]
      in *.
  - assert (Hz : Z.eqb pc 0 = false)
      by (apply Z.eqb_neq; apply Hpc; reflexivity).
    assert (Hconv : ~ Qred (r_aw k / 1000) == 0)
      by (apply Qquot_nonzero; [apply Hr; reflexivity | exact H1000]).
    unfold exhale_branch, _expiratory_flow, bind, lift, gets, modify, ret.
    cbn [Lung._r_aw Lung.c_rs Ventilator.peep Ventilator.t_e i
         phase_counter start_phase_time].
    rewrite Hz.
    rewrite (div_or_raise_Q _ Hconv); cbn [result_bind].
    rewrite div_or_raise_Q by (apply Qprod_nonzero; assumption).
    cbn [result_bind].
    rewrite (div_or_raise_Q _ Hc).
    rewrite count_phase_spec.
    rewrite (div_or_raise_Q _ H1000).
    cbn [phase_counter i phase start_phase_time Ventilator.t_e].
    destruct (geb _ _); reflexivity.
  - unfold inhale_branch, bind, lift, gets, modify, ret.
    cbn [Lung._r_aw Lung.c_rs i].
    rewrite (div_or_raise_Q _ Hc).
    rewrite count_phase_spec.
    rewrite (div_or_raise_Q _ H1000).
    cbn [phase_counter i phase start_phase_time Ventilator.t_i].
    destruct (geb _ _); reflexivity.
  - unfold pause_branch, bind, lift, gets, modify, ret.
    cbn [Lung._r_aw Lung.c_rs i].
    rewrite (div_or_raise_Q _ Hc).
    rewrite count_phase_spec.
    rewrite (div_or_raise_Q _ H1000).
    cbn [phase_counter i phase start_phase_time Ventilator.t_ip].
    destruct (geb _ _); reflexivity.
Qed.

(** A call with a zero divisor raises and leaves every field. *)
Lemma tick_raises_Q :
  forall (a : call_args) (s : SimulationState),
    (phase s = exhale -> phase_counter s <> 0%Z) ->
    rr (arg_kwargs a) == 0 \/ t_i (arg_kwargs a) == 0
    \/ c_rs (arg_kwargs a) == 0
    \/ (phase s = exhale /\ r_aw (arg_kwargs a) == 0) ->
    step a s = (s, Raised ZeroDivisionError).
Proof.
  intros [u_t flow volume pressure k] s Hpc Hzero.
  cbn [arg_kwargs] in *.
  unfold step, simulation_model, bind, lift.
  cbn [arg_u_t arg_flow arg_volume arg_pressure arg_kwargs].
  rewrite Lung_init_returns.
  destruct (Qeq_dec (rr k) 0) as [Hrr | Hrr].
  { rewrite Ventilator_init_fails by (left; exact Hrr). reflexivity. }
  destruct (Qeq_dec (t_i k) 0) as [Hti | Hti].
  { rewrite Ventilator_init_fails by (right; exact Hti). reflexivity. }
  rewrite (Ventilator_init_returns (v_t k) (peep k) (t_ip k) Hrr Hti).
  assert (Hrest : c_rs k == 0 \/ (phase s = exhale /\ r_aw k == 0))
    by tauto.
  clear Hzero.
  assert (H1000 : ~ 1000 == 0) by (intro Hz; discriminate Hz).
  unfold phase_equations.
  destruct s as [n pc ph start]; destruct ph;
    cbn [phase phase_counter i start_phase_time] in *.
  - assert (Hz : Z.eqb pc 0 = false)
      by (apply Z.eqb_neq; apply Hpc; reflexivity).
    unfold exhale_branch, _expiratory_flow, bind, lift, gets, modify, ret.
    cbn [Lung._r_aw Lung.c_rs Ventilator.peep i phase_counter
         start_phase_time].
    rewrite Hz.
    destruct (Qeq_dec (r_aw k) 0) as [Hr | Hr].
    + rewrite div_or_raise_zero; [reflexivity |].
      rewrite Qred_correct, Hr. reflexivity.
    + destruct Hrest as [Hc | [_ Hr0]]; [| contradiction].
      rewrite div_or_raise_Q
        by (apply Qquot_nonzero; [exact Hr | exact H1000]).
      cbn [result_bind].
      rewrite div_or_raise_zero; [reflexivity |].
      rewrite Qmul_num, Hc. ring.
  - destruct Hrest as [Hc | [Hph _]]; [| discriminate].
    unfold inhale_branch, bind, lift, gets, modify, ret.
    cbn [Lung.c_rs i].
    rewrite (div_or_raise_zero _ Hc). reflexivity.
  - destruct Hrest as [Hc | [Hph _]]; [| discriminate].
    unfold pause_branch, bind, lift, gets, modify, ret.
    cbn [Lung.c_rs i].
    rewrite (div_or_raise_zero _ Hc). reflexivity.
Qed.

(** With exact arithmetic, on a state whose counter is not 0 in
    exhale (every reachable state), a call returns exactly when the
    respiratory rate, the inspiratory time and the compliance are not
    zero and, in the exhale phase, neither is the airway resistance.
    Otherwise it raises [ZeroDivisionError] and leaves the four
    simulation fields untouched: a failed tick is not counted. *)
Theorem tick_returns_or_leaves_state :
  forall (a : call_args) (s : SimulationState),
    (phase s = exhale -> phase_counter s <> 0%Z) ->
    (~ rr (arg_kwargs a) == 0 ->
     ~ t_i (arg_kwargs a) == 0 ->
     ~ c_rs (arg_kwargs a) == 0 ->
     (phase s = exhale -> ~ r_aw (arg_kwargs a) == 0) ->
     exists s' obs,
       step a s = (s', Returned obs) /\ i s' = (i s + 1)%Z)
    /\ (rr (arg_kwargs a) == 0 \/ t_i (arg_kwargs a) == 0
        \/ c_rs (arg_kwargs a) == 0
        \/ (phase s = exhale /\ r_aw (arg_kwargs a) == 0) ->
        step a s = (s, Raised ZeroDivisionError)).
Proof.
  intros a s Hpc. split.
  - intros Hrr Hti Hc Hr.
    destruct (tick_returns_Q a s Hpc Hrr Hti Hc Hr)
      as (ventilator & obs & _ & Hstep).
    exists (advance ventilator (f_s (arg_kwargs a)) s), obs.
    split; [exact Hstep |].
    unfold advance. destruct (geb _ _); reflexivity.
  - apply tick_raises_Q. exact Hpc.
Qed.

End SimulatorRunsOnQ.

Section Cadence.
Local Open Scope Q_scope.
Import CpapEnv.

Variable k : kwargs (F := Q).
Variable ventilator : Ventilator.t (F := Q).
Hypothesis Hventilator :
  Ventilator.init (v_t k) (peep k) (rr k) (t_i k) (t_ip k)
    = Returned ventilator.
Hypothesis Hr_aw : ~ r_aw k == 0.
Hypothesis Hc_rs : ~ c_rs k == 0.

Lemma rate_and_time_nonzero : ~ rr k == 0 /\ ~ t_i k == 0.
Proof.
  split; intro Hz.
  - rewrite Ventilator_init_fails in Hventilator by (left; exact Hz).
    discriminate.
  - rewrite Ventilator_init_fails in Hventilator by (right; exact Hz).
    discriminate.
Qed.

Lemma geb_false_Q :
  forall (x : Z) (d f : Q),
    inject_Z x < d * f -> geb (of_Z x) (d * f)%num = false.
Proof.
  intros x d f Hlt. unfold geb. cbn [leb of_Z lit Num_Q].
  destruct (Qle_bool (d * f)%num (inject_Z x)) eqn:Hle; [| reflexivity].
  apply Qle_bool_iff in Hle. rewrite Qmul_num in Hle. lra.
Qed.

Lemma geb_true_Q :
  forall (x : Z) (d f : Q),
    d * f <= inject_Z x -> geb (of_Z x) (d * f)%num = true.
Proof.
  intros x d f Hle. unfold geb. cbn [leb of_Z lit Num_Q].
  apply Qle_bool_iff. rewrite Qmul_num. exact Hle.
Qed.

(** One call with the keywords [k] on a state with a counter of at
    least one. *)
Lemma step_advances :
  forall (a : call_args) (s : SimulationState),
    arg_kwargs a = k -> (1 <= phase_counter s)%Z ->
    fst (step a s) = advance ventilator (f_s k) s.
Proof.
  intros a s Hk Hpc.
  destruct rate_and_time_nonzero as [Hrr Hti].
  destruct (tick_returns_Q a s) as (v & obs & Hv & Hstep);
    rewrite ?Hk; try assumption; try (intros _; assumption).
  - intros _. lia.
  - rewrite Hk, Hventilator in Hv. injection Hv as <-.
    rewrite Hstep, Hk. reflexivity.
Qed.

Lemma run_app :
  forall (l1 l2 : list call_args) (s : SimulationState),
    run (l1 ++ l2) s = run l2 (run l1 s).
Proof.
  induction l1 as [| a l1 IH]; intros l2 s; cbn [run app].
  - reflexivity.
  - apply IH.
Qed.

(** While the counter stays below the threshold the phase is kept. *)
Lemma run_stays :
  forall (calls : list call_args) (s : SimulationState),
    Forall (fun a => arg_kwargs a = k) calls ->
    (1 <= phase_counter s)%Z ->
    inject_Z (phase_counter s + Z.of_nat (List.length calls))
      < phase_duration ventilator (phase s) * f_s k ->
    run calls s =
      mkState (i s + Z.of_nat (List.length calls))
              (phase_counter s + Z.of_nat (List.length calls))
              (phase s) (start_phase_time s).
Proof.
  induction calls as [| a rest IH]; intros s Hall Hpc Hlt.
  - cbn [run List.length Z.of_nat]. rewrite !Z.add_0_r.
    destruct s; reflexivity.
  - inversion Hall as [| a' rest' Ha Hrest]; subst a' rest'.
    cbn [run]. rewrite (step_advances a s Ha Hpc).
    cbn [List.length] in *. rewrite Nat2Z.inj_succ in *.
    assert (Hstay : geb (of_Z (phase_counter s + 1))
                      (phase_duration ventilator (phase s) * f_s k)%num
                    = false).
    { apply geb_false_Q.
      apply Qle_lt_trans with (2 := Hlt).
      rewrite <- Zle_Qle. lia. }
    unfold advance. rewrite Hstay.
    rewrite IH; cbn [i phase_counter phase start_phase_time].
    + f_equal; lia.
    + exact Hrest.
    + lia.
    + replace (phase_counter s + 1 + Z.of_nat (List.length rest))%Z
        with (phase_counter s + Z.succ (Z.of_nat (List.length rest)))%Z
        by lia.
      exact Hlt.
Qed.

(** A phase entered with the counter at 1 lasts the number of calls
    [lasts] gives. *)
Lemma phase_lasts :
  forall (calls : list call_args) (s : SimulationState),
    Forall (fun a => arg_kwargs a = k) calls ->
    phase_counter s = 1%Z ->
    lasts (phase_duration ventilator (phase s) * f_s k)
          (List.length calls) ->
    run calls s =
      mkState (i s + Z.of_nat (List.length calls)) 1
              (next_phase (phase s)) (start_phase_time s).
Proof.
  intros calls s Hall Hpc (Hpos & Hstay & Hfire).
  destruct (@exists_last _ calls) as (front & a & ->).
  { intro Hnil. rewrite Hnil in Hpos. cbn in Hpos. lia. }
  rewrite length_app in *. cbn [List.length] in *.
  apply Forall_app in Hall. destruct Hall as [Hfront Hlast].
  inversion Hlast as [| a' l' Ha _]; subst a' l'.
  rewrite run_app.
  assert (Hfront_run :
            run front s =
              mkState (i s + Z.of_nat (List.length front))
                      (phase_counter s + Z.of_nat (List.length front))
                      (phase s) (start_phase_time s)).
  { destruct front as [| b front'].
    - cbn [run List.length Z.of_nat]. rewrite !Z.add_0_r.
      destruct s; reflexivity.
    - apply run_stays; [exact Hfront | lia |].
      destruct Hstay as [Hone | Hlt]; [cbn in Hone; lia |].
      rewrite Hpc.
      replace (1 + Z.of_nat (List.length (b :: front')))%Z
        with (Z.of_nat (List.length (b :: front') + 1)) by lia.
      exact Hlt. }
  rewrite Hfront_run. cbn [run].
  rewrite step_advances; [| exact Ha | cbn; lia].
  unfold advance. cbn [i phase_counter phase start_phase_time].
  rewrite geb_true_Q.
  - f_equal. lia.
  - rewrite Hpc.
    replace (1 + Z.of_nat (List.length front) + 1)%Z
      with (Z.of_nat (List.length front + 1) + 1)%Z by lia.
    exact Hfire.
Qed.

(** The breathing cycle, with exact arithmetic and divisors that are
    not zero. From the entry of an exhale phase (counter 1), [ne]
    calls bring the inhale phase, [ni] more the pause and [np] more
    the next exhale, each entered with the counter at 1, where each
    number [n] is fixed by [n < duration * f_s <= n + 1] (or [n = 1]
    when [duration * f_s <= 2]). The cycle takes [ne + ni + np]
    calls, the tick index goes up by as many, and the start time is
    untouched. *)
Theorem breathing_cycle :
  forall (ce ci cp : list call_args) (s : SimulationState),
    Forall (fun a => arg_kwargs a = k) (ce ++ ci ++ cp) ->
    phase s = exhale ->
    phase_counter s = 1%Z ->
    lasts (Ventilator.t_e ventilator * f_s k) (List.length ce) ->
    lasts (Ventilator.t_i ventilator * f_s k) (List.length ci) ->
    lasts (Ventilator.t_ip ventilator * f_s k) (List.length cp) ->
    run ce s =
      mkState (i s + Z.of_nat (List.length ce)) 1 inhale
              (start_phase_time s)
    /\ run (ce ++ ci) s =
         mkState (i s + Z.of_nat (List.length ce + List.length ci)) 1 pause
                 (start_phase_time s)
    /\ run (ce ++ ci ++ cp) s =
         mkState (i s + Z.of_nat (List.length ce + List.length ci
                                  + List.length cp)) 1 exhale
                 (start_phase_time s).
Proof.
  intros ce ci cp s Hall Hphase Hpc He Hi Hp.
  apply Forall_app in Hall. destruct Hall as [Hce Hrest].
  apply Forall_app in Hrest. destruct Hrest as [Hci Hcp].
  assert (Hrun_e : run ce s =
            mkState (i s + Z.of_nat (List.length ce)) 1 inhale
                    (start_phase_time s)).
  { rewrite (@phase_lasts ce s Hce Hpc); rewrite Hphase; [reflexivity |].
    exact He. }
  assert (Hrun_i : run (ce ++ ci) s =
            mkState (i s + Z.of_nat (List.length ce + List.length ci))
                    1 pause (start_phase_time s)).
  { rewrite run_app, Hrun_e.
    rewrite (@phase_lasts ci _ Hci);
      cbn [i phase_counter phase start_phase_time next_phase phase_duration].
    - f_equal. lia.
    - reflexivity.
    - exact Hi. }
  split; [exact Hrun_e |]. split; [exact Hrun_i |].
  rewrite app_assoc, run_app, Hrun_i.
  rewrite (@phase_lasts cp _ Hcp);
    cbn [i phase_counter phase start_phase_time next_phase phase_duration].
  - f_equal. lia.
  - reflexivity.
  - exact Hp.
Qed.

End Cadence.

Section SimulatorPhasesOnQ.
Local Open Scope Q_scope.
Import CpapEnv.

(** A call either returns with the fields of [advance] or raises and
    leaves them. *)
Lemma tick_cases_Q :
  forall (a : call_args) (s : SimulationState),
    (phase s = exhale -> phase_counter s <> 0%Z) ->
    (exists ventilator obs,
        step a s = (advance ventilator (f_s (arg_kwargs a)) s, Returned obs))
    \/ step a s = (s, Raised ZeroDivisionError).
Proof.
  intros a s Hpc.
  destruct (Qeq_dec (rr (arg_kwargs a)) 0) as [Hrr | Hrr];
    [right; apply tick_raises_Q; tauto |].
  destruct (Qeq_dec (t_i (arg_kwargs a)) 0) as [Hti | Hti];
    [right; apply tick_raises_Q; tauto |].
  destruct (Qeq_dec (c_rs (arg_kwargs a)) 0) as [Hc | Hc];
    [right; apply tick_raises_Q; tauto |].
  destruct (phase s) eqn:Hphase.
  - destruct (Qeq_dec (r_aw (arg_kwargs a)) 0) as [Hr | Hr].
    + right. apply tick_raises_Q; [| rewrite Hphase; tauto].
      rewrite Hphase. exact Hpc.
    + left.
      destruct (tick_returns_Q a s) as (v & obs & _ & Hstep);
        rewrite ?Hphase; try assumption; try (intros _; assumption).
      exists v, obs. exact Hstep.
  - left.
    destruct (tick_returns_Q a s) as (v & obs & _ & Hstep);
      rewrite ?Hphase; try assumption; try discriminate.
    exists v, obs. exact Hstep.
  - left.
    destruct (tick_returns_Q a s) as (v & obs & _ & Hstep);
      rewrite ?Hphase; try assumption; try discriminate.
    exists v, obs. exact Hstep.
Qed.

(** A reachable state outside the exhale phase has a positive tick
    index. *)
Lemma reachable_index :
  forall s : SimulationState (F := Q),
    reachable s ->
    (0 <= i s)%Z /\ (i s = 0%Z -> phase s = exhale).
Proof.
  intros s Hreach.
  induction Hreach as [| s u_t flow volume pressure k Hreach [IHi IHp]].
  - cbn. split; [lia | reflexivity].
  - destruct (reachable_invariant Hreach) as [_ Hpc].
    change (simulation_model u_t flow volume pressure k s)
      with (step (mkArgs u_t flow volume pressure k) s).
    destruct (tick_cases_Q (mkArgs u_t flow volume pressure k) s)
      as [(v & obs & Hstep) | Hstep]; [intros _; lia | |];
      rewrite Hstep; cbn [fst].
    + unfold advance. destruct (geb _ _); cbn [i phase]; split; lia.
    + split; assumption.
Qed.

(** The inhale call, with exact arithmetic. *)
Lemma inhale_observation_Q :
  forall (a : call_args) (n pc : Z) (start : Q) (s' : SimulationState)
         (obs : observation),
    step a (mkState n pc inhale start) = (s', Returned obs) ->
    x2 obs =
      if Z.ltb 0 n
      then (arg_volume a
            + Qred (v_t (arg_kwargs a) / t_i (arg_kwargs a))
              * dt (arg_kwargs a))%num
      else 0.
Proof.
  intros [u_t flow volume pressure k] n pc start s' obs.
  cbn [arg_volume arg_kwargs].
  destruct (Qeq_dec (rr k) 0) as [Hrr | Hrr].
  { rewrite tick_raises_Q; [discriminate | discriminate | tauto]. }
  destruct (Qeq_dec (t_i k) 0) as [Hti | Hti].
  { rewrite tick_raises_Q; [discriminate | discriminate | tauto]. }
  unfold step, simulation_model, bind, lift.
  cbn [arg_u_t arg_flow arg_volume arg_pressure arg_kwargs].
  rewrite Lung_init_returns.
  rewrite (Ventilator_init_returns (v_t k) (peep k) (t_ip k) Hrr Hti).
  unfold phase_equations, inhale_branch, bind, lift, gets, modify, ret.
  cbn [phase i Lung.c_rs Lung._r_aw Ventilator._f_i].
  destruct (div_or_raise _ (c_rs k)) as [q | e |]; try discriminate.
  rewrite count_phase_spec.
  destruct (div_or_raise _ _) as [conv | e |]; try discriminate.
  intro Heq. inversion Heq. reflexivity.
Qed.

(** The branch of the inhale phase that sets the volume to 0 on the
    first tick of the episode ([i == 0]) is never taken: the
    simulator starts in exhale and counts every tick that changes the
    phase, so with exact arithmetic every reachable state in the
    inhale phase has [i > 0], and an inhale call that returns reports
    the volume it was given plus [v_t / t_i * dt]. *)
Theorem inhale_never_resets_volume :
  forall (s : SimulationState (F := Q)),
    reachable s ->
    phase s = inhale ->
    (0 < i s)%Z
    /\ forall (a : call_args) (s' : SimulationState) (obs : observation),
         step a s = (s', Returned obs) ->
         x2 obs ==
         arg_volume a
         + v_t (arg_kwargs a) / t_i (arg_kwargs a) * dt (arg_kwargs a).
Proof.
  intros s Hreach Hphase.
  destruct (reachable_index Hreach) as [Hi Hzero].
  assert (Hpos : (0 < i s)%Z).
  { destruct (Z.eq_dec (i s) 0) as [Hz | Hz]; [| lia].
    rewrite (Hzero Hz) in Hphase. discriminate. }
  split; [exact Hpos |].
  intros a s' obs Hstep.
  destruct s as [n pc ph start]. cbn [phase i] in *. subst ph.
  rewrite (inhale_observation_Q _ _ _ _ Hstep).
  assert (Hlt : Z.ltb 0 n = true) by (apply Z.ltb_lt; exact Hpos).
  rewrite Hlt, Qadd_num, Qmul_num, Qred_correct. reflexivity.
Qed.

(** With exact arithmetic, a call in the pause phase with rate,
    inspiratory time and compliance other than zero returns the flow
    0, the volume it was given and the pressure
    [volume / c_rs + PEEP]: the volume is held. *)
Theorem pause_holds_volume :
  forall (a : call_args) (n pc : Z) (start : Q),
    ~ rr (arg_kwargs a) == 0 ->
    ~ t_i (arg_kwargs a) == 0 ->
    ~ c_rs (arg_kwargs a) == 0 ->
    exists s' obs,
      step a (mkState n pc pause start) = (s', Returned obs)
      /\ x1 obs == 0
      /\ x2 obs == arg_volume a
      /\ x3 obs == arg_volume a / c_rs (arg_kwargs a) + peep (arg_kwargs a).
Proof.
  intros [u_t flow volume pressure k] n pc start.
  cbn [arg_volume arg_kwargs]. intros Hrr Hti Hc.
  assert (H1000 : ~ 1000 == 0) by (intro Hz; discriminate Hz).
  unfold step, simulation_model, bind, lift.
  cbn [arg_u_t arg_flow arg_volume arg_pressure arg_kwargs].
  rewrite Lung_init_returns.
  rewrite (Ventilator_init_returns (v_t k) (peep k) (t_ip k) Hrr Hti).
  unfold phase_equations, pause_branch, bind, lift, gets, modify, ret.
  cbn [phase i Lung.c_rs Lung._r_aw Ventilator.peep].
  rewrite (div_or_raise_Q _ Hc).
  rewrite count_phase_spec.
  rewrite (div_or_raise_Q _ H1000).
  eexists. eexists. split; [reflexivity |].
  cbn [x1 x2 x3].
  cbv [add sub mul neg lit of_Z Num_Q]. rewrite !Qred_correct.
  change (inject_Z 0) with 0. change (inject_Z 60) with 60.
  split; [| split].
  - field.
  - ring.
  - field. exact Hc.
Qed.

(** With exact arithmetic, an exhale call whose pressure argument is
    at PEEP finds no flow: it returns the flow 0, the volume it was
    given and the pressure [volume / c_rs + PEEP], whatever the time
    since the phase started. *)
Theorem exhale_at_peep_has_no_flow :
  forall (a : call_args) (n pc : Z) (start : Q),
    pc <> 0%Z ->
    ~ rr (arg_kwargs a) == 0 ->
    ~ t_i (arg_kwargs a) == 0 ->
    ~ c_rs (arg_kwargs a) == 0 ->
    ~ r_aw (arg_kwargs a) == 0 ->
    arg_pressure a == peep (arg_kwargs a) ->
    exists s' obs,
      step a (mkState n pc exhale start) = (s', Returned obs)
      /\ x1 obs == 0
      /\ x2 obs == arg_volume a
      /\ x3 obs == arg_volume a / c_rs (arg_kwargs a) + peep (arg_kwargs a).
Proof.
  intros [u_t flow volume pressure k] n pc start.
  cbn [arg_volume arg_pressure arg_kwargs]. intros Hpc Hrr Hti Hc Hr Hp.
  assert (H1000 : ~ 1000 == 0) by (intro Hz; discriminate Hz).
  assert (Hconv : ~ Qred (r_aw k / 1000) == 0)
    by (apply Qquot_nonzero; assumption).
  assert (Hz : Z.eqb pc 0 = false) by (apply Z.eqb_neq; exact Hpc).
  unfold step, simulation_model, bind, lift.
  cbn [arg_u_t arg_flow arg_volume arg_pressure arg_kwargs].
  rewrite Lung_init_returns.
  rewrite (Ventilator_init_returns (v_t k) (peep k) (t_ip k) Hrr Hti).
  unfold phase_equations, exhale_branch, _expiratory_flow, bind, lift,
    gets, modify, ret.
  cbn [phase i phase_counter start_phase_time Lung.c_rs Lung._r_aw
       Ventilator.peep].
  rewrite Hz.
  rewrite (div_or_raise_Q _ Hconv). cbn [result_bind].
  rewrite div_or_raise_Q by (apply Qprod_nonzero; assumption).
  cbn [result_bind].
  rewrite (div_or_raise_Q _ Hc).
  rewrite count_phase_spec.
  rewrite (div_or_raise_Q _ H1000).
  eexists. eexists. split; [reflexivity |].
  cbn [x1 x2 x3].
  set (decay := np_exp _).
  cbv [add sub mul neg lit of_Z Num_Q]. rewrite !Qred_correct.
  change (inject_Z 60) with 60.
  rewrite Hp.
  split; [| split]; field; repeat split; assumption.
Qed.

End SimulatorPhasesOnQ.

(** ** The factory *)

Section FactoryFacts.
Context {F : Type} `{Num F}.
Local Open Scope num_scope.
Local Open Scope string_scope.
Local Open Scope list_scope.
Import PIDController.

Variables Sched Ens Sample Env Coef Plant : Type.
Variable Scheduller_init : list F -> list F -> result Sched.
Variable EnsembleGenerator_init : list (string * F) -> Z -> result Ens.
Variable generate_sample : Ens -> result Sample.
Variable gymnasium_make :
  string -> Sched -> Sample -> Z -> string -> result Env.
Variable DictToArrayWrapper : Env -> result Env.
Variable sympy_coeffs : result (list Coef * list Coef).
Variable evalf : Coef -> F * F * F * F * F -> result F.
Variable ct_TransferFunction : list F -> list F -> result Plant.
Variable step_response : Plant -> list F * list F.
Variable step_info_peak : Plant -> F.
Variable np_gradient : list F -> list F -> list F.
Variable closed_loop_step_response : TransferFunction F -> Plant -> list F.
Variable minimize :
  (F * F * F -> F) -> F * F * F -> string -> result (F * F * F).

(** What the loop appends: as many evaluated coefficients to each
    list as the shorter of the two inputs has, taken from the front
    of each. *)
Lemma fill_appends :
  forall (subs : F * F * F * F * F) (numerators denominators : list Coef)
         (acc_n acc_d fn fd : list F),
    CpapEnv.fill evalf subs numerators denominators acc_n acc_d = Returned (fn, fd) ->
    exists vn vd,
      fn = acc_n ++ vn /\ fd = acc_d ++ vd
      /\ List.length vn
           = Nat.min (List.length numerators) (List.length denominators)
      /\ List.length vd = List.length vn
      /\ Forall2 (fun c v => evalf c subs = Returned v)
           (firstn (List.length vn) numerators) vn
      /\ Forall2 (fun c v => evalf c subs = Returned v)
           (firstn (List.length vd) denominators) vd.
Proof.
  intros subs numerators.
  induction numerators as [| n ns IH]; intros denominators acc_n acc_d fn fd.
  - cbn [CpapEnv.fill]. intro Heq. injection Heq as <- <-.
    exists [], []. rewrite !app_nil_r. cbn. repeat split; constructor.
  - destruct denominators as [| d ds].
    + cbn [CpapEnv.fill]. intro Heq. injection Heq as <- <-.
      exists [], []. rewrite !app_nil_r. cbn. repeat split; constructor.
    + cbn [CpapEnv.fill].
      destruct (evalf n subs) as [vn0 | e |] eqn:Hn; try discriminate.
      cbn [result_bind].
      destruct (evalf d subs) as [vd0 | e |] eqn:Hd; try discriminate.
      cbn [result_bind]. intro Hfill.
      destruct (IH ds _ _ _ _ Hfill)
        as (vn & vd & Hfn & Hfd & Hlen & Hlen' & Hvn & Hvd).
      exists (vn0 :: vn), (vd0 :: vd).
      rewrite Hfn, Hfd, <- !app_assoc. cbn [app List.length firstn].
      rewrite Hlen'. rewrite Hlen' in Hvd.
      repeat split; try reflexivity.
      * rewrite Hlen. reflexivity.
      * constructor; assumption.
      * constructor; assumption.
Qed.

(** The plant the factory builds has a numerator and a denominator of
    the same length, the shorter of the two symbolic coefficient
    lists: the loop runs over [zip], so when the denominator has more
    coefficients than the numerator its last ones never reach the
    transfer function. The coefficients kept are the evaluated
    leading ones, in order. *)
Theorem cpap_model_truncates :
  forall (subs : F * F * F * F * F) (numerators denominators : list Coef)
         (plant : Plant),
    sympy_coeffs = Returned (numerators, denominators) ->
    CpapEnv.cpap_model sympy_coeffs evalf ct_TransferFunction subs = Returned plant ->
    exists fn fd,
      ct_TransferFunction fn fd = Returned plant
      /\ List.length fn
           = Nat.min (List.length numerators) (List.length denominators)
      /\ List.length fd = List.length fn
      /\ Forall2 (fun c v => evalf c subs = Returned v)
           (firstn (List.length fn) numerators) fn
      /\ Forall2 (fun c v => evalf c subs = Returned v)
           (firstn (List.length fd) denominators) fd.
Proof.
  intros subs numerators denominators plant Hsym.
  unfold CpapEnv.cpap_model. rewrite Hsym. cbn [result_bind].
  destruct (CpapEnv.fill evalf subs numerators denominators [] [])
    as [[fn fd] | e |] eqn:Hfill; try discriminate.
  cbn [result_bind]. intro Hplant.
  destruct (fill_appends _ _ _ _ _ Hfill)
    as (vn & vd & Hfn & Hfd & Hlen & Hlen' & Hvn & Hvd).
  cbn [app] in Hfn, Hfd. subst fn fd.
  exists vn, vd. repeat split; assumption.
Qed.

(** The entry point on its ZN branch, by the tuner without the plot. *)
Lemma train_ZN_outcome :
  forall (plant : Plant) (pid_type : string) (kp ki kd : F),
    train_pid_controller step_response step_info_peak np_gradient
      closed_loop_step_response minimize plant "ZN" pid_type kp ki kd
    = match train_pid_with_ZN_method step_response step_info_peak
              np_gradient plant pid_type false with
      | Returned _ => Exited
      | Raised e => Raised e
      | Exited => Exited
      end.
Proof.
  intros plant pid_type kp ki kd. unfold train_pid_controller.
  change (String.eqb "ZN" "ZN") with true. cbv iota.
  unfold default_plot. rewrite ZN_with_plot.
  destruct (train_pid_with_ZN_method _ _ _ plant pid_type false);
    reflexivity.
Qed.

(** [create_cpap_environment] never returns an environment: whatever
    its collaborators do, it raises or, once they have all returned
    and the tuner has its gains, ends the process, because it trains
    the controller with the method "ZN". *)
Theorem create_cpap_environment_never_returns :
  let r :=
    CpapEnv.create_cpap_environment Scheduller_init EnsembleGenerator_init
      generate_sample gymnasium_make DictToArrayWrapper sympy_coeffs evalf
      ct_TransferFunction step_response step_info_peak np_gradient
      closed_loop_step_response minimize in
  r = Exited \/ exists e, r = Raised e.
Proof.
  cbv zeta. unfold CpapEnv.create_cpap_environment.
  destruct (div_or_raise (lit 48.5 * of_Z 60) (of_Z 1000)) as [rl0 | e |];
    cbn [result_bind]; [| right; eexists; reflexivity | left; reflexivity].
  change (CpapEnv.lookup "Heated Humidifier, Normal" (CpapEnv.patient rl0))
    with (Some (lit 10e-3, of_Z 50, rl0)).
  cbv iota beta.
  repeat match goal with
         | |- context [result_bind ?r _] =>
             lazymatch r with
             | train_pid_controller _ _ _ _ _ _ _ _ _ _ _ => fail
             | _ => destruct r as [? | ? |]; cbn [result_bind];
                    [| right; eexists; reflexivity | left; reflexivity]
             end
         end.
  rewrite train_ZN_outcome.
  destruct (train_pid_with_ZN_method _ _ _ _ _ false) as [g | e |];
    cbn [result_bind].
  - left. reflexivity.
  - right. eexists. reflexivity.
  - left. reflexivity.
Qed.

End FactoryFacts.

Section FurtherExamples.
Local Open Scope Q_scope.
Local Open Scope list_scope.
Import CpapEnv.

(** Two calls on the initial state that differ in the action, the
    flow and the patient and blower keywords. *)
Lemma action_has_no_effect_witness :
  run [mkArgs 0 0 0 5 Inputs.ensemble_params] initial_state
    = run [mkArgs 99 7 0 5
             (mkKwargs 1 2 3 4 5 3 60 350 5 15 1 0.25 (1 / 30) 30)]
          initial_state
  /\ trace [mkArgs 0 0 0 5 Inputs.ensemble_params] initial_state
     = trace [mkArgs 99 7 0 5
                (mkKwargs 1 2 3 4 5 3 60 350 5 15 1 0.25 (1 / 30) 30)]
             initial_state.
Proof.
  apply (@action_has_no_effect Q _).
  repeat constructor.
Defined.

(** On the initial state: the call with the parameters of the
    factory returns and counts; the same call with the rate 0 raises
    and leaves the state. *)
Lemma tick_returns_or_leaves_state_witness :
  (exists s' obs,
      step (mkArgs 0 0 0 5 Inputs.ensemble_params) initial_state
        = (s', Returned obs)
      /\ i s' = 1%Z)
  /\ step (mkArgs 0 0 0 5
             (mkKwargs 0.01 50 2.91 0.01 0.5 3 60 350 5 0 1 0.25 (1 / 30) 30))
          initial_state
     = (initial_state, Raised ZeroDivisionError).
Proof.
  assert (Hpc : phase (initial_state (F := Q)) = exhale ->
                phase_counter (initial_state (F := Q)) <> 0%Z)
    by (intros _; discriminate).
  split.
  - destruct (tick_returns_or_leaves_state
                (mkArgs 0 0 0 5 Inputs.ensemble_params) initial_state Hpc)
      as [Hreturns _].
    apply Hreturns;
      [intro Hz; discriminate Hz | intro Hz; discriminate Hz
      | intro Hz; discriminate Hz | intros _ Hz; discriminate Hz].
  - destruct (tick_returns_or_leaves_state
                (mkArgs 0 0 0 5
                   (mkKwargs 0.01 50 2.91 0.01 0.5 3 60 350 5 0 1 0.25
                      (1 / 30) 30))
                initial_state Hpc)
      as [_ Hraises].
    apply Hraises. left. reflexivity.
Defined.

(** The cycle with the parameters of the factory: 82 calls of
    exhale, 29 of inhale and 7 of pause, 118 in all, where the
    durations 2.75 s, 1 s and 0.25 s at 30 Hz are 120 samples. *)
Lemma breathing_cycle_witness :
  run (repeat (mkArgs 0 0 0 5 Inputs.ensemble_params) 82) initial_state
    = mkState 82 1 inhale 0
  /\ run (repeat (mkArgs 0 0 0 5 Inputs.ensemble_params) 82
          ++ repeat (mkArgs 0 0 0 5 Inputs.ensemble_params) 29)
         initial_state
     = mkState 111 1 pause 0
  /\ run (repeat (mkArgs 0 0 0 5 Inputs.ensemble_params) 82
          ++ repeat (mkArgs 0 0 0 5 Inputs.ensemble_params) 29
          ++ repeat (mkArgs 0 0 0 5 Inputs.ensemble_params) 7)
         initial_state
     = mkState 118 1 exhale 0.
Proof.
  apply (@breathing_cycle Inputs.ensemble_params
           (Ventilator.mk 350 5 15 (1 # 4) 1 0.25 4 (11 # 4) 350)).
  - vm_compute. reflexivity.
  - intro Hz. discriminate Hz.
  - intro Hz. discriminate Hz.
  - rewrite !Forall_app. repeat split; apply Forall_forall;
      intros a Ha; apply repeat_spec in Ha; subst a; reflexivity.
  - reflexivity.
  - reflexivity.
  - rewrite repeat_length. unfold lasts.
    split; [lia |]. split; [right; vm_compute; reflexivity |].
    vm_compute. discriminate.
  - rewrite repeat_length. unfold lasts.
    split; [lia |]. split; [right; vm_compute; reflexivity |].
    vm_compute. discriminate.
  - rewrite repeat_length. unfold lasts.
    split; [lia |]. split; [right; vm_compute; reflexivity |].
    vm_compute. discriminate.
Defined.

(** The first inhale state of the run with the parameters of the
    factory, at tick 82. *)
Lemma inhale_never_resets_volume_witness :
  (0 < 82)%Z
  /\ forall (a : call_args) (s' : SimulationState) (obs : observation),
       step a Inputs.inhaling = (s', Returned obs) ->
       x2 obs ==
       arg_volume a
       + v_t (arg_kwargs a) / t_i (arg_kwargs a) * dt (arg_kwargs a).
Proof.
  apply (@inhale_never_resets_volume Inputs.inhaling).
  - assert (Hstate : Inputs.ticks 82 Inputs.ensemble_params initial_state
                     = Inputs.inhaling) by (vm_compute; reflexivity).
    rewrite <- Hstate. apply ticks_reachable. apply reachable_initial.
  - reflexivity.
Defined.

(** A pause call at tick 111 with volume 350. *)
Lemma pause_holds_volume_witness :
  exists s' obs,
    step (mkArgs 0 21 350 9 Inputs.ensemble_params)
         (mkState 111 1 pause 0) = (s', Returned obs)
    /\ x1 obs == 0
    /\ x2 obs == 350
    /\ x3 obs == 350 / 60 + 5.
Proof.
  apply (pause_holds_volume (mkArgs 0 21 350 9 Inputs.ensemble_params)
           111 1 0);
    intro Hz; discriminate Hz.
Defined.

(** An exhale call at tick 118 with the pressure at PEEP = 5. *)
Lemma exhale_at_peep_has_no_flow_witness :
  exists s' obs,
    step (mkArgs 0 0 350 5 Inputs.ensemble_params)
         (mkState 118 1 exhale 0) = (s', Returned obs)
    /\ x1 obs == 0
    /\ x2 obs == 350
    /\ x3 obs == 350 / 60 + 5.
Proof.
  apply (@exhale_at_peep_has_no_flow
           (mkArgs 0 0 350 5 Inputs.ensemble_params) 118 1 0).
  - discriminate.
  - intro Hz. discriminate Hz.
  - intro Hz. discriminate Hz.
  - intro Hz. discriminate Hz.
  - intro Hz. discriminate Hz.
  - reflexivity.
Defined.

(** A numerator of two coefficients and a denominator of three, the
    degrees of the model [kb / (s + 1/tb) * (rl + rp*rl*c*s) /
    (1 + (rp + rl)*c*s)]: the plant keeps two of each, and the
    constant 100 of the denominator is lost. *)
Lemma cpap_model_truncates_witness :
  exists fn fd : list Q,
    Returned (PIDController.mkTF fn fd)
      = Returned (PIDController.mkTF [0.7275; 1.455] [146; 14601])
    /\ List.length fn = Nat.min 2 3
    /\ List.length fd = List.length fn
    /\ Forall2 (fun c v => Returned c = Returned v)
         (firstn (List.length fn) [0.7275; 1.455]) fn
    /\ Forall2 (fun c v => Returned c = Returned v)
         (firstn (List.length fd) [146; 14601; 100]) fd.
Proof.
  apply (@cpap_model_truncates Q Q (PIDController.TransferFunction Q)
           (Returned ([0.7275; 1.455], [146; 14601; 100]))
           (fun c _ => Returned c)
           (fun n d => Returned (PIDController.mkTF n d))
           (50, 0.01, 0.01, 0.5, 2.91)
           [0.7275; 1.455] [146; 14601; 100]
           (PIDController.mkTF [0.7275; 1.455] [146; 14601])).
  - reflexivity.
  - reflexivity.
Defined.

End FurtherExamples.

(** ** The phase machine *)

Section PhaseMachineOnQ.
Local Open Scope Q_scope.
Import CpapEnv.




End PhaseMachineOnQ.

Section PhaseMachineExamples.
Local Open Scope Q_scope.
Import CpapEnv.



End PhaseMachineExamples.
